(** * msvc_notificaciones: the event-to-delivery pipeline

    A shallow embedding of the notification service
    (app/services/notification_service.py), the realtime connection
    registry (app/websockets/connection_manager.py) and the queue consumer
    (app/consumers/notification_consumer.py), with the properties the
    specification states about them.

    Python [str] is a [string] (a sequence of bytes), [int] is [Z],
    [Optional[T]] is [option T], a [dict] whose iteration order matters is
    an association list in insertion order, a [dict] that is only looked up
    is a [gmap], a [set] is a [gset]. *)

From Stdlib Require Import ZArith Ascii String DecimalString Bool Lia.
From stdpp Require Import base option list gmap strings.

Local Open Scope Z_scope.

(* ===================================================================== *)
(** * Python values and strings *)
(* ===================================================================== *)

Module Py.

(** The values a JSON event payload can hold ([Dict[str, Any]]).  Floats
    and nested containers are carried by the text [str()] prints for
    them, which is all the renderer uses. *)
Inductive value : Type :=
| VStr (s : string)
| VInt (z : Z)
| VBool (b : bool)
| VNone
| VOther (text : string).

(** [str(value)] *)
Definition str (v : value) : string :=
  match v with
  | VStr s => s
  | VInt z => NilZero.string_of_int (Z.to_int z)
  | VBool true => "True"
  | VBool false => "False"
  | VNone => "None"
  | VOther text => text
  end.

(** Truthiness of an [Optional[str]]: [None] and the empty string are
    falsy. *)
Definition truthy_str (o : option string) : bool :=
  match o with
  | Some (String _ _) => true
  | _ => false
  end.

(** Truthiness of an [int] used as a flag: only [0] is falsy. *)
Definition truthy_int (z : Z) : bool := negb (z =? 0).

(** Truthiness of an [Optional[dict]], given by its items: [None] and the
    empty dict are falsy. *)
Definition truthy_items {V} (o : option (list (string * V))) : bool :=
  match o with
  | Some (_ :: _) => true
  | _ => false
  end.

(** A [dict] in insertion order. *)
Definition dict (V : Type) : Type := list (string * V).

(** [d.get(key)] *)
Fixpoint dict_get {V} (d : dict V) (key : string) : option V :=
  match d with
  | [] => None
  | (k, v) :: d' => if String.eqb k key then Some v else dict_get d' key
  end.

(** [d[key] = v]: an existing key keeps its position, a new key goes
    last. *)
Fixpoint dict_set {V} (d : dict V) (key : string) (v : V) : dict V :=
  match d with
  | [] => [(key, v)]
  | (k, w) :: d' =>
      if String.eqb k key then (k, v) :: d' else (k, w) :: dict_set d' key v
  end.

(** [s.replace(old, new)] for a non-empty [old]: the occurrences of [old]
    are found left to right and do not overlap.  [skip] counts the
    characters of a matched occurrence that are still to be dropped. *)
Fixpoint replace_from (old new : string) (skip : nat) (s : string) : string :=
  match s with
  | EmptyString => EmptyString
  | String c s' =>
      match skip with
      | S k => replace_from old new k s'
      | O =>
          if String.prefix old s
          then new +:+ replace_from old new (String.length old - 1) s'
          else String c (replace_from old new 0 s')
      end
  end.

(** With an empty [old], Python puts [new] before every character and
    at the end. *)
Fixpoint intersperse (new s : string) : string :=
  match s with
  | EmptyString => new
  | String c s' => new +:+ String c (intersperse new s')
  end.

Definition replace (s old new : string) : string :=
  match old with
  | EmptyString => intersperse new s
  | String _ _ => replace_from old new 0 s
  end.

End Py.

(* ===================================================================== *)
(** * Template Renderer *)
(* ===================================================================== *)

Module Renderer.
Import Py.

(** [f"{{{key}}}"] *)
Definition placeholder (key : string) : string := "{" +:+ key +:+ "}".

(** [NotificationService._replace_placeholders]: one [str.replace] per
    item of [data], in the order of [data.items()]. *)
Definition _replace_placeholders (template : string) (data : dict value) : string :=
  fold_left
    (fun result '(key, v) => replace result (placeholder key) (str v))
    data template.

End Renderer.

(* ===================================================================== *)
(** * Data model (app/models/notification.py) *)
(* ===================================================================== *)

Inductive NotificationType : Type := EMAIL | PUSH.
Inductive NotificationStatus : Type := PENDING | SENT | FAILED | RETRYING.
Inductive NotificationPriority : Type := LOW | NORMAL | HIGH | URGENT.

Module NotificationType.
(** The [.value] of the enum member. *)
Definition value (t : NotificationType) : string :=
  match t with EMAIL => "email" | PUSH => "push" end.
End NotificationType.

Module NotificationPriority.
Definition value (p : NotificationPriority) : string :=
  match p with
  | LOW => "low" | NORMAL => "normal" | HIGH => "high" | URGENT => "urgent"
  end.
End NotificationPriority.

#[global] Instance NotificationType_eq_dec : EqDecision NotificationType.
Proof. solve_decision. Defined.
#[global] Instance NotificationStatus_eq_dec : EqDecision NotificationStatus.
Proof. solve_decision. Defined.

(** A point in time ([datetime]) is a number of microseconds; a
    [timedelta(seconds=n)] is [n] million of them. *)
Definition datetime : Type := Z.
Definition timedelta_seconds (seconds : Z) : Z := seconds * 1000000.

(** One outbound message.  [id] is the row's identity (a fresh UUID in the
    source, the row's position in the session here).

    [data] is a plain [Column(JSON)]: the session does not see a change
    made inside the dict it has loaded, only an assignment to the
    attribute.  The last two fields are what the session knows of the
    column: [data_row] is the payload the row holds, [data_assigned] tells
    whether the attribute has been assigned since the last flush.  Every
    other attribute the service writes is written by assignment. *)
Module Notification.
Record t : Type := mk {
  id : nat;
  user_id : string;
  notification_type : NotificationType;
  status : NotificationStatus;
  priority : NotificationPriority;
  recipient_email : option string;
  recipient_fcm_token : option string;
  subject : option string;
  title : option string;
  body : string;
  data : option (Py.dict Py.value);
  event_type : string;
  retry_count : Z;
  max_retries : Z;
  next_retry_at : option datetime;
  error_message : option string;
  created_at : datetime;
  sent_at : option datetime;
  data_row : option (Py.dict Py.value);
  data_assigned : bool
}.

(** Attribute assignments, one per attribute the service writes. *)
Definition set_status (n : t) (x : NotificationStatus) : t :=
  mk (id n) (user_id n) (notification_type n) x (priority n)
     (recipient_email n) (recipient_fcm_token n) (subject n) (title n)
     (body n) (data n) (event_type n) (retry_count n) (max_retries n)
     (next_retry_at n) (error_message n) (created_at n) (sent_at n)
     (data_row n) (data_assigned n).
Definition set_data (n : t) (x : option (Py.dict Py.value)) : t :=
  mk (id n) (user_id n) (notification_type n) (status n) (priority n)
     (recipient_email n) (recipient_fcm_token n) (subject n) (title n)
     (body n) x (event_type n) (retry_count n) (max_retries n)
     (next_retry_at n) (error_message n) (created_at n) (sent_at n)
     (data_row n) true.
Definition set_retry_count (n : t) (x : Z) : t :=
  mk (id n) (user_id n) (notification_type n) (status n) (priority n)
     (recipient_email n) (recipient_fcm_token n) (subject n) (title n)
     (body n) (data n) (event_type n) x (max_retries n)
     (next_retry_at n) (error_message n) (created_at n) (sent_at n)
     (data_row n) (data_assigned n).
Definition set_next_retry_at (n : t) (x : option datetime) : t :=
  mk (id n) (user_id n) (notification_type n) (status n) (priority n)
     (recipient_email n) (recipient_fcm_token n) (subject n) (title n)
     (body n) (data n) (event_type n) (retry_count n) (max_retries n)
     x (error_message n) (created_at n) (sent_at n)
     (data_row n) (data_assigned n).
Definition set_error_message (n : t) (x : option string) : t :=
  mk (id n) (user_id n) (notification_type n) (status n) (priority n)
     (recipient_email n) (recipient_fcm_token n) (subject n) (title n)
     (body n) (data n) (event_type n) (retry_count n) (max_retries n)
     (next_retry_at n) x (created_at n) (sent_at n)
     (data_row n) (data_assigned n).
Definition set_sent_at (n : t) (x : option datetime) : t :=
  mk (id n) (user_id n) (notification_type n) (status n) (priority n)
     (recipient_email n) (recipient_fcm_token n) (subject n) (title n)
     (body n) (data n) (event_type n) (retry_count n) (max_retries n)
     (next_retry_at n) (error_message n) (created_at n) x
     (data_row n) (data_assigned n).

(** [notification.data[key] = v]: an item set inside the dict the
    attribute holds.  The attribute itself is not assigned. *)
Definition set_data_item (n : t) (key : string) (v : Py.value) : t :=
  mk (id n) (user_id n) (notification_type n) (status n) (priority n)
     (recipient_email n) (recipient_fcm_token n) (subject n) (title n)
     (body n)
     (Some (Py.dict_set (match data n with Some d => d | None => [] end) key v))
     (event_type n) (retry_count n) (max_retries n)
     (next_retry_at n) (error_message n) (created_at n) (sent_at n)
     (data_row n) (data_assigned n).

(** The object after a [db.commit()] that returns.  The flush writes the
    payload to the row when the attribute was assigned, and leaves the row's
    payload alone when it was not; the commit expires the object, so that
    the next read of [data] gives the row's payload. *)
Definition refresh (n : t) : t :=
  let row := if data_assigned n then data n else data_row n in
  mk (id n) (user_id n) (notification_type n) (status n) (priority n)
     (recipient_email n) (recipient_fcm_token n) (subject n) (title n)
     (body n) row (event_type n) (retry_count n) (max_retries n)
     (next_retry_at n) (error_message n) (created_at n) (sent_at n)
     row false.
End Notification.

(** The content blueprint of one (event_type, channel) pair.  [is_active]
    is the integer the column stores. *)
Module NotificationTemplate.
Record t : Type := mk {
  event_type : string;
  notification_type : NotificationType;
  subject_template : option string;
  title_template : option string;
  body_template : string;
  priority : NotificationPriority;
  is_active : Z
}.
End NotificationTemplate.

(** The opt-in state of one user.  The two global flags are the integers
    the columns store; [event_preferences] is the JSON column
    [{event_type: {channel: bool}}], which may be null. *)
Module UserNotificationPreference.
Record t : Type := mk {
  user_id : string;
  fcm_token : option string;
  email_enabled : Z;
  push_enabled : Z;
  event_preferences : option (gmap string (gmap string bool))
}.
End UserNotificationPreference.

(** The canonical event (app/schemas/notification.py). *)
Module NotificationEvent.
Record t : Type := mk {
  user_id : string;
  user_email : option string;
  fcm_token : option string;
  event_type : string;
  data : Py.dict Py.value;
  priority : NotificationPriority
}.
End NotificationEvent.

(** [settings.MAX_RETRY_ATTEMPTS] and [settings.RETRY_DELAY_SECONDS], as
    [NotificationService.__init__] reads them. *)
Record NotificationService : Type := {
  max_retries : Z;
  retry_delay : Z
}.

Definition notification_service : NotificationService :=
  {| max_retries := 3; retry_delay := 60 |}.

(* ===================================================================== *)
(** * Preference Resolver and the rendered content *)
(* ===================================================================== *)

Module Resolver.
Import Py.

(** [NotificationService._should_send_notification] *)
Definition _should_send_notification
    (preferences : option UserNotificationPreference.t)
    (template : NotificationTemplate.t)
    (event_type : string) : bool :=
  match preferences with
  | None => true
  | Some preferences =>
      let ty := NotificationTemplate.notification_type template in
      if bool_decide (ty = EMAIL)
         && negb (truthy_int (UserNotificationPreference.email_enabled preferences))
      then false
      else if bool_decide (ty = PUSH)
         && negb (truthy_int (UserNotificationPreference.push_enabled preferences))
      then false
      else
        match UserNotificationPreference.event_preferences preferences with
        | Some event_preferences =>
            match event_preferences !! event_type with
            | Some event_pref =>
                match event_pref !! NotificationType.value ty with
                | Some b => b
                | None => true
                end
            | None => true
            end
        | None => true
        end
  end.

End Resolver.

Module Rendering.
Import Py Renderer.

(** The [rendered] dict of [_render_template]: the keys ['subject'] and
    ['title'] exist only when the template has a non-empty text for
    them. *)
Record rendered : Type := {
  r_subject : option string;
  r_title : option string;
  r_body : string
}.

(** [NotificationService._render_template] *)
Definition _render_template (template : NotificationTemplate.t)
    (data : dict value) : rendered :=
  {| r_subject :=
       if truthy_str (NotificationTemplate.subject_template template)
       then (fun s => _replace_placeholders s data)
              <$> NotificationTemplate.subject_template template
       else None;
     r_title :=
       if truthy_str (NotificationTemplate.title_template template)
       then (fun s => _replace_placeholders s data)
              <$> NotificationTemplate.title_template template
       else None;
     r_body :=
       _replace_placeholders (NotificationTemplate.body_template template) data |}.

End Rendering.

(* ===================================================================== *)
(** * Retry State Machine *)
(* ===================================================================== *)

Module Retry.
Import Py Notification.

(** [NotificationService._handle_failed_notification]; [now] is what
    [datetime.utcnow()] returns when the handler reads the clock. *)
Definition _handle_failed_notification (self : NotificationService)
    (now : datetime) (notification : Notification.t)
    (error_message : option string) : Notification.t :=
  let n1 := set_retry_count notification (retry_count notification + 1) in
  let n2 :=
    if retry_count n1 <? Notification.max_retries n1
    then set_next_retry_at (set_status n1 RETRYING)
           (Some (now + timedelta_seconds (retry_delay self * retry_count n1)))
    else set_status n1 FAILED in
  if truthy_str error_message then set_error_message n2 error_message else n2.

End Retry.


(* ===================================================================== *)
(** * Realtime connection registry (app/websockets/connection_manager.py) *)
(* ===================================================================== *)

(** A [WebSocket] object, by identity. *)
Definition WebSocket : Type := nat.

Module ConnectionManager.

(** [self.active_connections : Dict[str, Set[WebSocket]]] *)
Abbreviation t := (gmap string (gset WebSocket)).

(** [ConnectionManager.__init__] *)
Definition init : t := ∅.

(** [connect], once [await websocket.accept()] has returned; when
    [accept] raises, the registry is not touched ([accepted = false]). *)
Definition connect (accepted : bool) (websocket : WebSocket)
    (user_id : string) (self : t) : t :=
  if accepted then
    let self1 :=
      match self !! user_id with
      | None => <[user_id := ∅]> self
      | Some _ => self
      end in
    match self1 !! user_id with
    | Some conns => <[user_id := {[websocket]} ∪ conns]> self1
    | None => self1
    end
  else self.

(** [disconnect] *)
Definition disconnect (websocket : WebSocket) (user_id : string) (self : t) : t :=
  match self !! user_id with
  | Some conns =>
      let conns' := conns ∖ {[websocket]} in
      if decide (conns' = ∅) then delete user_id self
      else <[user_id := conns']> self
  | None => self
  end.

(** [is_user_connected] *)
Definition is_user_connected (user_id : string) (self : t) : bool :=
  match self !! user_id with
  | Some conns => bool_decide (0 < size conns)%nat
  | None => false
  end.

(** One round of the loop over a user's connections: [send_json ws] tells
    whether [await ws.send_json(message)] returns ([true]) or raises
    ([false]).  The state is the pair ([disconnected], [sent_count]). *)
Definition send_step (send_json : WebSocket → bool)
    (state : gset WebSocket * nat) (websocket : WebSocket)
    : gset WebSocket * nat :=
  let '(disconnected, sent_count) := state in
  if send_json websocket
  then (disconnected, S sent_count)
  else ({[websocket]} ∪ disconnected, sent_count).

(** The loop over one user's connections. *)
Definition send_loop (send_json : WebSocket → bool) (conns : gset WebSocket)
    : gset WebSocket * nat :=
  fold_left (send_step send_json) (elements conns) (∅, 0%nat).

(** [send_notification]: the returned flag and the registry afterwards. *)
Definition send_notification (send_json : WebSocket → bool)
    (user_id : string) (self : t) : bool * t :=
  match self !! user_id with
  | None => (false, self)
  | Some conns =>
      let '(disconnected, sent_count) := send_loop send_json conns in
      let conns' := conns ∖ disconnected in
      let self' :=
        if decide (conns' = ∅) then delete user_id self
        else <[user_id := conns']> self in
      (bool_decide (0 < sent_count)%nat, self')
  end.

(** [broadcast]: every user's set loses the connections whose send
    raised (the sets are updated in place), then the users left with an
    empty set are deleted. *)
Definition broadcast (send_json : WebSocket → bool) (self : t) : t :=
  let updated := (fun conns => conns ∖ fst (send_loop send_json conns)) <$> self in
  let disconnected_users :=
    (map_to_list (filter (fun kv => kv.2 = ∅) updated)).*1 in
  fold_left (fun m user_id => delete user_id m) disconnected_users updated.

(** [get_connected_users_count] *)
Definition get_connected_users_count (self : t) : nat := size self.

End ConnectionManager.

(* ===================================================================== *)
(** * Exceptions, collaborators and the state the service runs in *)
(* ===================================================================== *)

(** The classes of exception the handlers tell apart, and [str(e)]. *)
Inductive exception_class : Type :=
| ValidationError
| JSONDecodeError
| KeyError
| TypeError
| AttributeError
| OtherError.

Record exception : Type := Exception {
  exc_class : exception_class;
  exc_str : string
}.

(** What a call that may raise gives back. *)
Inductive result (A : Type) : Type :=
| Returns (a : A)
| Raises (e : exception).
Arguments Returns {A} a.
Arguments Raises {A} e.

(** The [ws_notification] dict [_send_notification] builds. *)
Record WsNotification : Type := {
  ws_id : nat;
  ws_type : string;
  ws_event_type : string;
  ws_title : option string;
  ws_body : string;
  ws_data : option (Py.dict Py.value);
  ws_created_at : datetime;
  ws_priority : string
}.

(** A call made to a delivery collaborator. *)
Inductive Call : Type :=
| EmailCall (to_email : option string) (subject : option string) (body : string)
| PushCall (fcm_token : option string) (title : option string) (body : string)
| RealtimeCall (user_id : string) (notification : WsNotification).

(** The collaborators.  Each external interaction happens at a tick of
    the world's counter, and the collaborator's answer may depend on it:
    - [storage_fault k]: the message of the error the storage call made at
      tick [k] raises, if it raises;
    - [utcnow k]: the clock at tick [k];
    - [send_email], [send_push_notification]: what the sender returns, or
      the error it throws;
    - [send_json k ws msg]: whether [await ws.send_json(msg)] returns
      ([true]) or raises ([false]);
    - the two tables the service reads. *)
Record Env : Type := {
  storage_fault : nat → option string;
  utcnow : nat → datetime;
  send_email : nat → option string → option string → string → result bool;
  send_push_notification :
    nat → option string → option string → string → option (Py.dict Py.value) → result bool;
  send_json : nat → WebSocket → WsNotification → bool;
  generate_html_template :
    option string → string → option (Py.dict Py.value) → string;
  preferences_table : list UserNotificationPreference.t;
  templates_table : list NotificationTemplate.t
}.

(** The mutable state: the Notification objects of the session (a
    notification's [id] is its position), the connection registry, the
    calls made so far (latest last) and the tick counter. *)
Record World : Type := {
  session : list Notification.t;
  manager : gmap string (gset WebSocket);
  calls : list Call;
  tick : nat
}.

Module Run.

(** A computation: reads the collaborators, updates the world, returns or
    raises. *)
Definition M (A : Type) : Type := Env → World → result A * World.

Definition ret {A} (a : A) : M A := fun _ w => (Returns a, w).

Definition raise {A} (e : exception) : M A := fun _ w => (Raises e, w).

Definition bind {A B} (m : M A) (k : A → M B) : M B :=
  fun env w =>
    match m env w with
    | (Returns a, w') => k a env w'
    | (Raises e, w') => (Raises e, w')
    end.

(** [try: m except Exception as e: handler(e)] *)
Definition try_except {A} (m : M A) (handler : exception → M A) : M A :=
  fun env w =>
    match m env w with
    | (Returns a, w') => (Returns a, w')
    | (Raises e, w') => handler e env w'
    end.

(** [try: m finally: f] *)
Definition try_finally {A} (m : M A) (f : M unit) : M A :=
  fun env w =>
    let '(r, w') := m env w in
    match f env w' with
    | (Returns _, w'') => (r, w'')
    | (Raises e, w'') => (Raises e, w'')
    end.

Definition ask : M Env := fun env w => (Returns env, w).

Definition get : M World := fun _ w => (Returns w, w).

Definition put (w : World) : M unit := fun _ _ => (Returns tt, w).

End Run.

Declare Scope run_scope.
Delimit Scope run_scope with run.
Notation "'let!' x ':=' m 'in' k" := (Run.bind m (fun x => k))
  (at level 10, x pattern, m at level 100, k at level 200) : run_scope.
Notation "m ';;' k" := (Run.bind m (fun _ => k))
  (at level 100, k at level 200, right associativity) : run_scope.

(* ===================================================================== *)
(** * Delivery Orchestrator (app/services/notification_service.py) *)
(* ===================================================================== *)

Module Service.
Import Py Run Resolver Rendering.
Local Open Scope run_scope.

(** The current tick, which the interaction uses up. *)
Definition next_tick : M nat :=
  let! w := get in
  put {| session := session w; manager := manager w; calls := calls w;
         tick := S (tick w) |} ;;
  ret (tick w).

(** One call to the storage layer ([SessionLocal()], a query, [db.add],
    [db.commit], [db.refresh], [db.close]). *)
Definition db_call : M unit :=
  let! env := ask in
  let! k := next_tick in
  match storage_fault env k with
  | Some msg => raise (Exception OtherError msg)
  | None => ret tt
  end.

(** [datetime.utcnow()] *)
Definition now : M datetime :=
  let! env := ask in
  let! w := get in
  ret (utcnow env (tick w)).

Definition record_call (c : Call) : M unit :=
  let! w := get in
  put {| session := session w; manager := manager w;
         calls := calls w ++ [c]; tick := tick w |}.

(** Reading the Notification object with identity [nid]. *)
Definition notification_of (nid : nat) : M Notification.t :=
  let! w := get in
  match session w !! nid with
  | Some n => ret n
  | None => raise (Exception OtherError "no such notification")
  end.

(** Mutating the Notification object with identity [nid] in place. *)
Definition update_notification (nid : nat) (f : Notification.t → Notification.t)
    : M unit :=
  let! w := get in
  put {| session := alter f nid (session w); manager := manager w;
         calls := calls w; tick := tick w |}.

Definition set_manager (m : gmap string (gset WebSocket)) : M unit :=
  let! w := get in
  put {| session := session w; manager := m; calls := calls w; tick := tick w |}.

(** [for x in xs: acc = body(acc, x)] *)
Fixpoint for_each {A S} (xs : list A) (acc : S) (body : S → A → M S) : M S :=
  match xs with
  | [] => ret acc
  | x :: xs' => let! acc' := body acc x in for_each xs' acc' body
  end.

(** [NotificationService._get_user_preferences] *)
Definition _get_user_preferences (user_id : string)
    : M (option UserNotificationPreference.t) :=
  let! env := ask in
  db_call ;;
  ret (List.find
         (fun p => String.eqb (UserNotificationPreference.user_id p) user_id)
         (preferences_table env)).

(** [NotificationService._get_templates] *)
Definition _get_templates (event_type : string) : M (list NotificationTemplate.t) :=
  let! env := ask in
  db_call ;;
  ret (List.filter
         (fun t => String.eqb (NotificationTemplate.event_type t) event_type
                   && (NotificationTemplate.is_active t =? 1))
         (templates_table env)).

(** [NotificationService._create_notification]: the new object gets the
    column defaults ([retry_count = 0], [max_retries = 3]) and joins the
    session when the commit goes through, its payload written to the row;
    the result is its identity. *)
Definition _create_notification
    (user_id : string) (notification_type : NotificationType)
    (event_type : string) (body : string) (data : dict value)
    (priority : NotificationPriority)
    (recipient_email recipient_fcm_token subject title : option string)
    : M nat :=
  db_call ;;
  db_call ;;
  let! created := now in
  let! w := get in
  let nid := length (session w) in
  let notification :=
    Notification.mk nid user_id notification_type PENDING priority
      recipient_email recipient_fcm_token subject title body (Some data)
      event_type 0 3 None None created None (Some data) false in
  put {| session := session w ++ [notification]; manager := manager w;
         calls := calls w; tick := tick w |} ;;
  db_call ;;
  ret nid.

(** [rendered[key]] *)
Definition rendered_item (key : string) (item : option string) : M string :=
  match item with
  | Some s => ret s
  | None => raise (Exception KeyError ("'" +:+ key +:+ "'"))
  end.

(** [a or b] on two [Optional[str]] *)
Definition or_else (a b : option string) : option string :=
  if truthy_str a then a else b.

(** The realtime payload built from a notification. *)
Definition ws_notification_of (n : Notification.t) : WsNotification :=
  {| ws_id := Notification.id n;
     ws_type := NotificationType.value (Notification.notification_type n);
     ws_event_type := Notification.event_type n;
     ws_title := Notification.title n;
     ws_body := Notification.body n;
     ws_data := Notification.data n;
     ws_created_at := Notification.created_at n;
     ws_priority := NotificationPriority.value (Notification.priority n) |}.

(** [manager.send_notification(user_id, notification)] *)
Definition manager_send_notification (user_id : string)
    (notification : WsNotification) : M bool :=
  let! env := ask in
  record_call (RealtimeCall user_id notification) ;;
  let! k := next_tick in
  let! w := get in
  let '(sent, m') :=
    ConnectionManager.send_notification
      (fun ws => send_json env k ws notification) user_id (manager w) in
  set_manager m' ;;
  ret sent.

(** [push_service.send_push_notification(...)] *)
Definition push_send (n : Notification.t) : M bool :=
  let! env := ask in
  record_call (PushCall (Notification.recipient_fcm_token n)
                 (Notification.title n) (Notification.body n)) ;;
  let! k := next_tick in
  match send_push_notification env k (Notification.recipient_fcm_token n)
          (Notification.title n) (Notification.body n) (Notification.data n) with
  | Returns b => ret b
  | Raises e => raise e
  end.

(** [email_service.generate_html_template] then [email_service.send_email] *)
Definition email_send (n : Notification.t) : M bool :=
  let! env := ask in
  let html_body :=
    generate_html_template env (Notification.subject n) (Notification.body n)
      (Notification.data n) in
  record_call (EmailCall (Notification.recipient_email n)
                 (Notification.subject n) html_body) ;;
  let! k := next_tick in
  match send_email env k (Notification.recipient_email n)
          (Notification.subject n) html_body with
  | Returns b => ret b
  | Raises e => raise e
  end.

(** The success branch of [_send_notification]: status and [sent_at] are
    assigned; a null or empty payload is replaced by a fresh dict, which
    is an assignment to [data]; the ['sent_via'] entry is then set inside
    the dict that [data] holds. *)
Definition mark_sent (sent_at : datetime) (sent_via_websocket : bool)
    (n : Notification.t) : Notification.t :=
  let n1 := Notification.set_status n SENT in
  let n2 := Notification.set_sent_at n1 (Some sent_at) in
  let n3 :=
    if truthy_items (Notification.data n2) then n2
    else Notification.set_data n2 (Some []) in
  Notification.set_data_item n3 "sent_via"
    (VStr (if sent_via_websocket then "websocket"
           else NotificationType.value (Notification.notification_type n3))).

(** [db.commit()] in [_send_notification]: when the storage layer
    returns, the notification being sent is flushed and expired; when it
    raises, the object stays as the attempt left it. *)
Definition commit (nid : nat) : M unit :=
  db_call ;;
  update_notification nid Notification.refresh.

(** [_handle_failed_notification] on the object with identity [nid]. *)
Definition handle_failed (self : NotificationService) (nid : nat)
    (error_message : option string) : M unit :=
  let! t := now in
  update_notification nid
    (fun n => Retry._handle_failed_notification self t n error_message).

(** The body of the [try] in [_send_notification]. *)
Definition attempt (self : NotificationService) (nid : nat) : M unit :=
  let! n := notification_of nid in
  let! (success, sent_via_websocket) :=
    match Notification.notification_type n with
    | PUSH =>
        let! w := get in
        let! sent_via_websocket :=
          if ConnectionManager.is_user_connected (Notification.user_id n) (manager w)
          then manager_send_notification (Notification.user_id n)
                 (ws_notification_of n)
          else ret false in
        if negb sent_via_websocket
           && truthy_str (Notification.recipient_fcm_token n)
        then
          let! success := push_send n in
          ret (success, sent_via_websocket)
        else ret (sent_via_websocket, sent_via_websocket)
    | EMAIL =>
        let! success := email_send n in
        ret (success, false)
    end in
  (if success : bool then
     let! t := now in
     update_notification nid (mark_sent t sent_via_websocket)
   else handle_failed self nid None) ;;
  commit nid.

(** [NotificationService._send_notification] *)
Definition _send_notification (self : NotificationService) (nid : nat) : M unit :=
  try_except (attempt self nid)
    (fun e => handle_failed self nid (Some (exc_str e)) ;; commit nid).

(** One round of the loop over the templates in [process_event]. *)
Definition process_template (event : NotificationEvent.t)
    (preferences : option UserNotificationPreference.t)
    (notifications_to_send : list nat) (template : NotificationTemplate.t)
    : M (list nat) :=
  if negb (_should_send_notification preferences template
             (NotificationEvent.event_type event))
  then ret notifications_to_send
  else
    let rendered := _render_template template (NotificationEvent.data event) in
    match NotificationTemplate.notification_type template with
    | EMAIL =>
        if truthy_str (NotificationEvent.user_email event) then
          let! subject := rendered_item "subject" (r_subject rendered) in
          let! notification :=
            _create_notification (NotificationEvent.user_id event) EMAIL
              (NotificationEvent.event_type event) (r_body rendered)
              (NotificationEvent.data event)
              (NotificationTemplate.priority template)
              (NotificationEvent.user_email event) None (Some subject) None in
          ret (notifications_to_send ++ [notification])
        else ret notifications_to_send
    | PUSH =>
        let fcm_token :=
          or_else (NotificationEvent.fcm_token event)
            (match preferences with
             | Some p => UserNotificationPreference.fcm_token p
             | None => None
             end) in
        if truthy_str fcm_token then
          let! title := rendered_item "title" (r_title rendered) in
          let! notification :=
            _create_notification (NotificationEvent.user_id event) PUSH
              (NotificationEvent.event_type event) (r_body rendered)
              (NotificationEvent.data event)
              (NotificationTemplate.priority template)
              None fcm_token None (Some title) in
          ret (notifications_to_send ++ [notification])
        else ret notifications_to_send
    end.

(** The body of the [try] in [process_event]. *)
Definition process_event_body (self : NotificationService)
    (event : NotificationEvent.t) : M unit :=
  let! preferences := _get_user_preferences (NotificationEvent.user_id event) in
  let! templates := _get_templates (NotificationEvent.event_type event) in
  let! notifications_to_send :=
    for_each templates [] (process_template event preferences) in
  for_each notifications_to_send tt
    (fun _ notification => _send_notification self notification).

(** [NotificationService.process_event]: the session is opened before the
    [try]; the [except] logs the error and returns; the [finally] closes
    the session. *)
Definition process_event (self : NotificationService)
    (event : NotificationEvent.t) : M unit :=
  db_call ;;
  try_finally
    (try_except (process_event_body self event) (fun e => ret tt))
    db_call.

End Service.

(* ===================================================================== *)
(** * Event Ingestion Adapter (app/consumers/notification_consumer.py) *)
(* ===================================================================== *)

#[local] Set Warnings "-register-all".

(** A parsed JSON document.  A float is carried by the text [str()]
    prints for it. *)
Inductive Json : Type :=
| JNull
| JBool (b : bool)
| JInt (z : Z)
| JFloat (text : string)
| JStr (s : string)
| JArr (items : list Json)
| JObj (fields : list (string * Json)).

(** What the consumer tells the channel about the delivery. *)
Inductive ChannelAction : Type :=
| BasicAck
| BasicReject (requeue : bool)
| BasicNack (requeue : bool).

(** The library functions the consumer calls:
    - [upper s]: [s.upper()];
    - [json_loads body]: the parsed document, or [None] when [json.loads]
      raises;
    - [repr_container v]: [str(v)] for a list or a dict;
    - [uuid5_dns name]: [str(uuid5(NAMESPACE_DNS, name))];
    - [validate fields]: the event the schema [NotificationEvent] builds
      from the keyword arguments [fields], or [None] when it raises
      [ValidationError]. *)
Record Library : Type := {
  upper : string → string;
  json_loads : string → option Json;
  repr_container : Json → string;
  uuid5_dns : string → string;
  validate : list (string * Json) → option NotificationEvent.t
}.

Module Consumer.
Import Py Run.
Local Open Scope run_scope.

Definition routing_key_mapping : dict string :=
  [ ("email.verification", "EMAIL_VERIFICATION");
    ("email.welcome", "EMAIL_WELCOME");
    ("email.password_reset", "EMAIL_PASSWORD_RESET");
    ("email.password_changed", "EMAIL_PASSWORD_CHANGED");
    ("reservation.created", "RESERVATION_CREATED");
    ("reservation.confirmed", "RESERVATION_CONFIRMED");
    ("reservation.cancelled", "RESERVATION_CANCELLED");
    ("reservation.reminder", "RESERVATION_REMINDER");
    ("payment.success", "PAYMENT_SUCCESS");
    ("payment.failed", "PAYMENT_FAILED");
    ("parking.spot.released", "SPOT_RELEASED") ].

(** [map_routing_key_to_event_type] *)
Definition map_routing_key_to_event_type (lib : Library)
    (routing_key : string) : string :=
  match dict_get routing_key_mapping routing_key with
  | Some event_type => event_type
  | None => replace (upper lib routing_key) "." "_"
  end.

(** [str(v)] of a parsed JSON value, as an f-string formats it. *)
Definition json_str (lib : Library) (v : Json) : string :=
  match v with
  | JNull => "None"
  | JBool true => "True"
  | JBool false => "False"
  | JInt z => NilZero.string_of_int (Z.to_int z)
  | JFloat text => text
  | JStr s => s
  | JArr _ | JObj _ => repr_container lib v
  end.

(** [sub in s] on strings *)
Fixpoint contains (sub s : string) : bool :=
  String.prefix sub s ||
  match s with
  | EmptyString => false
  | String _ s' => contains sub s'
  end.

(** [transform_auth_event] *)
Definition transform_auth_event (lib : Library) (message : Json)
    (event_type routing_key : string) : result Json :=
  if String.prefix "email." routing_key then
    match message with
    | JObj fields =>
        let user_id :=
          match dict_get fields "user_id" with
          | Some (JInt z) =>
              JStr (uuid5_dns lib ("user-" +:+ json_str lib (JInt z)))
          | Some (JBool b) =>
              JStr (uuid5_dns lib ("user-" +:+ json_str lib (JBool b)))
          | Some v => v
          | None => JNull
          end in
        let frontend_url :=
          default (JStr "http://localhost:3000") (dict_get fields "frontend_url") in
        let data : dict Json := [] in
        let data :=
          match dict_get fields "verification_token" with
          | Some token =>
              dict_set
                (dict_set data "verification_link"
                   (JStr (json_str lib frontend_url +:+ "/verify-email?token="
                          +:+ json_str lib token)))
                "verification_token" token
          | None => data
          end in
        let data :=
          match dict_get fields "reset_token" with
          | Some token =>
              dict_set
                (dict_set data "reset_link"
                   (JStr (json_str lib frontend_url +:+ "/reset-password?token="
                          +:+ json_str lib token)))
                "reset_token" token
          | None => data
          end in
        let data := dict_set data "name" (default (JStr EmptyString) (dict_get fields "name")) in
        let data := dict_set data "email" (default (JStr EmptyString) (dict_get fields "email")) in
        let data := dict_set data "frontend_url" frontend_url in
        Returns
          (JObj [ ("user_id", user_id);
                  ("user_email", default JNull (dict_get fields "email"));
                  ("event_type", JStr event_type);
                  ("data", JObj data);
                  ("priority", JStr "normal") ])
    | _ =>
        Raises (Exception AttributeError "object has no attribute 'get'")
    end
  else
    match message with
    | JObj fields =>
        match dict_get fields "event_type" with
        | Some _ => Returns message
        | None => Returns (JObj (dict_set fields "event_type" (JStr event_type)))
        end
    | JStr s =>
        if contains "event_type" s then Returns message
        else Raises (Exception TypeError
                       "'str' object does not support item assignment")
    | JArr items =>
        if existsb (fun item => match item with
                                | JStr s => String.eqb s "event_type"
                                | _ => false
                                end) items
        then Returns message
        else Raises (Exception TypeError
                       "list indices must be integers or slices, not str")
    | _ => Raises (Exception TypeError "argument is not iterable")
    end.

(** The call of [NotificationEvent] with the transformed message as its
    keyword arguments. *)
Definition build_event (lib : Library) (transformed_message : Json)
    : result NotificationEvent.t :=
  match transformed_message with
  | JObj fields =>
      match validate lib fields with
      | Some event => Returns event
      | None => Raises (Exception ValidationError "validation error for NotificationEvent")
      end
  | _ => Raises (Exception TypeError "argument must be a mapping")
  end.

Definition lift {A} (r : result A) : M A :=
  match r with
  | Returns a => ret a
  | Raises e => raise e
  end.

(** [process_notification_event]: [routing_key] is [method.routing_key];
    the result is the call made on the channel. *)
Definition process_notification_event (lib : Library)
    (self : NotificationService) (routing_key body : string) : M ChannelAction :=
  try_except
    (let! message :=
       match json_loads lib body with
       | Some message => ret message
       | None => raise (Exception JSONDecodeError "Expecting value")
       end in
     let event_type := map_routing_key_to_event_type lib routing_key in
     let! transformed_message :=
       lift (transform_auth_event lib message event_type routing_key) in
     let! event := lift (build_event lib transformed_message) in
     Service.process_event self event ;;
     ret BasicAck)
    (fun e =>
       match exc_class e with
       | ValidationError => ret (BasicReject false)
       | _ => ret (BasicNack true)
       end).

End Consumer.


(* ===================================================================== *)
(** * More of the connection registry *)
(* ===================================================================== *)

Module ConnectionCounts.

(** [ConnectionManager.get_total_connections_count]: the sum of the sizes
    of the connection sets. *)
Definition get_total_connections_count
    (self : gmap string (gset WebSocket)) : nat :=
  sum_list_with (fun kv => size kv.2) (map_to_list self).

End ConnectionCounts.
(* ===================================================================== *)
(** * Vocabulary of the properties, and example data *)
(* ===================================================================== *)

(** The global flag that governs a channel. *)
Definition channel_enabled (preferences : UserNotificationPreference.t)
    (channel : NotificationType) : bool :=
  match channel with
  | EMAIL => Py.truthy_int (UserNotificationPreference.email_enabled preferences)
  | PUSH => Py.truthy_int (UserNotificationPreference.push_enabled preferences)
  end.

(** The boolean the record's overrides give for an event type and a
    channel, if any. *)
Definition override_of (preferences : UserNotificationPreference.t)
    (event_type : string) (channel : NotificationType) : option bool :=
  ov ← UserNotificationPreference.event_preferences preferences;
  event_pref ← ov !! event_type;
  event_pref !! NotificationType.value channel.

(** A push template. *)
Definition push_template_example : NotificationTemplate.t :=
  NotificationTemplate.mk "RESERVATION_CONFIRMED" PUSH None
    (Some "Reservation Confirmed") "Your reservation at {parking_name} is confirmed!"
    NORMAL 1.

(** Push switched off globally, switched on for one event type. *)
Definition push_off_override_on : UserNotificationPreference.t :=
  UserNotificationPreference.mk "user-1" (Some "token-1") 1 0
    (Some {[ "RESERVATION_CONFIRMED" := {[ "push" := true ]} ]}).

(** A template seen as the specification describes it: literal text and
    [{key}] placeholders. *)
Inductive segment : Type :=
| Text (s : string)
| Placeholder (key : string).

Definition unparse_segment (seg : segment) : string :=
  match seg with
  | Text s => s
  | Placeholder key => Renderer.placeholder key
  end.

(** The template string a sequence of segments stands for. *)
Fixpoint unparse (segs : list segment) : string :=
  match segs with
  | [] => EmptyString
  | seg :: segs' => unparse_segment seg +:+ unparse segs'
  end.

(** What the specification says rendering does to one segment: a
    placeholder whose key is in the data map becomes the string form of
    the value, any other segment stays as it is. *)
Definition resolve (data : Py.dict Py.value) (seg : segment) : segment :=
  match seg with
  | Text s => Text s
  | Placeholder key =>
      match Py.dict_get data key with
      | Some v => Text (Py.str v)
      | None => Placeholder key
      end
  end.

Fixpoint lacks (c : ascii) (s : string) : bool :=
  match s with
  | EmptyString => true
  | String c' s' => negb (Ascii.eqb c' c) && lacks c s'
  end.

(** Neither brace occurs in [s]. *)
Definition brace_free (s : string) : bool := lacks "{" s && lacks "}" s.

(** Every opening brace of the template opens a placeholder, and keys
    hold no brace. *)
Definition plain_segment (seg : segment) : bool :=
  match seg with
  | Text s => lacks "{" s
  | Placeholder key => brace_free key
  end.

(** The key holds no brace and the value's string form no opening
    brace. *)
Definition plain_item (item : string * Py.value) : bool :=
  brace_free item.1 && lacks "{" (Py.str item.2).

(** A value whose string form is itself a placeholder. *)
Definition nested_data : Py.dict Py.value :=
  [("a", Py.VStr "{b}"); ("b", Py.VStr "x")].

Definition nested_data_reversed : Py.dict Py.value :=
  [("b", Py.VStr "x"); ("a", Py.VStr "{b}")].

(** One [str.replace] seen on segments: the placeholders of [key] become
    the text [new]. *)
Definition substitute (key new : string) (seg : segment) : segment :=
  match seg with
  | Text s => Text s
  | Placeholder key' => if String.eqb key' key then Text new else Placeholder key'
  end.

(** The template and data of the repository's own rendering test. *)
Definition order_template : list segment :=
  [Text "Hello "; Placeholder "name"; Text ", your order ";
   Placeholder "order_id"; Text " is ready"].

Definition order_data : Py.dict Py.value := [("name", Py.VStr "John")].

(** The invariant of the connection registry: every user that is a key
    of the map has at least one connection. *)
Definition registry_ok (m : gmap string (gset WebSocket)) : Prop :=
  ∀ user_id conns, m !! user_id = Some conns → conns ≠ ∅.

(** Two users, three connections. *)
Definition registry_example : gmap string (gset WebSocket) :=
  ConnectionManager.connect true 7%nat "u"
    (ConnectionManager.connect true 5%nat "u"
       (ConnectionManager.connect true 9%nat "v" ConnectionManager.init)).

(** [wp m env w Q]: the postcondition [Q] holds of what [m] returns or
    raises from the world [w], and of the world it leaves. *)
Definition wp {A} (m : Run.M A) (env : Env) (w : World)
    (Q : result A → World → Prop) : Prop :=
  Q (m env w).1 (m env w).2.

(** How a notification that was delivered went out, and the calls made on
    the way: through the realtime registry, or through the sender of its
    channel (for a push notification possibly after a realtime call that
    reached no connection). *)
Definition delivered_by (env : Env) (n : Notification.t)
    (sent_via_websocket : bool) (cs : list Call) : Prop :=
  let realtime :=
    RealtimeCall (Notification.user_id n) (Service.ws_notification_of n) in
  let push :=
    PushCall (Notification.recipient_fcm_token n) (Notification.title n)
      (Notification.body n) in
  let email :=
    EmailCall (Notification.recipient_email n) (Notification.subject n)
      (generate_html_template env (Notification.subject n)
         (Notification.body n) (Notification.data n)) in
  match Notification.notification_type n with
  | PUSH =>
      if sent_via_websocket then cs = [realtime]
      else cs = [push] ∨ cs = [realtime; push]
  | EMAIL => sent_via_websocket = false ∧ cs = [email]
  end.

(** The calls a send attempt can make for a notification: at most one
    realtime call, then at most one call to the sender of its channel. *)
Definition calls_of_attempt (env : Env) (n : Notification.t)
    (cs : list Call) : Prop :=
  let realtime :=
    RealtimeCall (Notification.user_id n) (Service.ws_notification_of n) in
  let push :=
    PushCall (Notification.recipient_fcm_token n) (Notification.title n)
      (Notification.body n) in
  let email :=
    EmailCall (Notification.recipient_email n) (Notification.subject n)
      (generate_html_template env (Notification.subject n)
         (Notification.body n) (Notification.data n)) in
  match Notification.notification_type n with
  | PUSH => cs = [] ∨ cs = [realtime] ∨ cs = [push] ∨ cs = [realtime; push]
  | EMAIL => cs = [email]
  end.

(** The end of the body of the [try], once the notification has been
    brought to [m]: the commit returns and the object is as the row now
    is, or the commit raises a storage error and the object stays [m]. *)
Definition committed (env : Env) (m : Notification.t) (r : result unit)
    (n1 : Notification.t) : Prop :=
  (r = Returns tt ∧ n1 = Notification.refresh m)
  ∨ (n1 = m ∧
     ∃ k msg, storage_fault env k = Some msg ∧
              r = Raises (Exception OtherError msg)).

(** What the body of the [try] of [_send_notification] leaves of the
    notification [n]:
    - delivered: the success branch ran, then the commit;
    - not delivered: the sender (or the registry, with no push token to
      fall back on) reported failure, the failure handler ran without
      an error detail, then the commit;
    - a sender raised: the notification is untouched. *)
Definition attempt_result (self : NotificationService) (env : Env)
    (n : Notification.t) (r : result unit) (n1 : Notification.t)
    (cs : list Call) : Prop :=
  (∃ t sent_via_websocket,
      delivered_by env n sent_via_websocket cs ∧
      committed env (Service.mark_sent t sent_via_websocket n) r n1)
  ∨ (∃ t, calls_of_attempt env n cs ∧
          committed env (Retry._handle_failed_notification self t n None) r n1)
  ∨ (n1 = n ∧ (∃ e, r = Raises e) ∧ calls_of_attempt env n cs).

(** The provenance entry of a notification's data payload. *)
Definition sent_via (n : Notification.t) : option Py.value :=
  d ← Notification.data n; Py.dict_get d "sent_via".

(** The tag the success branch writes. *)
Definition provenance (n : Notification.t) (sent_via_websocket : bool) : Py.value :=
  Py.VStr (if sent_via_websocket then "websocket"
           else NotificationType.value (Notification.notification_type n)).

(** Collaborators that never raise: storage works, the clock shows the
    tick, both senders report failure, and no connection takes a
    message. *)
Definition failing_senders : Env :=
  {| storage_fault := fun _ => None;
     utcnow := fun k => Z.of_nat k;
     send_email := fun _ _ _ _ => Returns false;
     send_push_notification := fun _ _ _ _ _ => Returns false;
     send_json := fun _ _ _ => false;
     generate_html_template := fun _ body _ => body;
     preferences_table := [];
     templates_table := [] |}.

(** The same, with connections that take every message. *)
Definition open_sockets : Env :=
  {| storage_fault := fun _ => None;
     utcnow := fun k => Z.of_nat k;
     send_email := fun _ _ _ _ => Returns false;
     send_push_notification := fun _ _ _ _ _ => Returns false;
     send_json := fun _ _ _ => true;
     generate_html_template := fun _ body _ => body;
     preferences_table := [];
     templates_table := [] |}.

(** An email notification as [_create_notification] leaves it. *)
Definition pending_notification : Notification.t :=
  Notification.mk 0 "user-1" EMAIL PENDING NORMAL (Some "test@example.com") None
    (Some "Test") None "Test body" (Some []) "TEST_EVENT" 0 3 None None 0 None
    (Some []) false.

(** An email notification that failed once with a thrown error. *)
Definition retrying_notification : Notification.t :=
  Notification.mk 0 "user-1" EMAIL RETRYING NORMAL (Some "test@example.com") None
    (Some "Test") None "Test body" (Some []) "TEST_EVENT" 1 3 (Some 60000000)
    (Some "Connection timeout") 0 None (Some []) false.

(** A push notification. *)
Definition push_notification : Notification.t :=
  Notification.mk 0 "user-1" PUSH PENDING NORMAL None (Some "fcm-token-123")
    None (Some "Test") "Test body" (Some []) "TEST_EVENT" 0 3 None None 0 None
    (Some []) false.

(** A push notification whose payload has an item, as the row holds
    it. *)
Definition push_notification_with_payload : Notification.t :=
  Notification.mk 0 "user-1" PUSH PENDING NORMAL None (Some "fcm-token-123")
    None (Some "Test") "Test body" (Some [("parking_name", Py.VStr "Lot1")])
    "TEST_EVENT" 0 3 None None 0 None
    (Some [("parking_name", Py.VStr "Lot1")]) false.


(** A world holding one notification and the given registry. *)
Definition world_with (n : Notification.t) (m : gmap string (gset WebSocket))
    : World :=
  {| session := [n]; manager := m; calls := []; tick := 0 |}.

Definition is_email_call (c : Call) : bool :=
  match c with
  | EmailCall _ _ _ => true
  | _ => false
  end.

(** Since the world [w0], no email notification has joined the session
    and no call went to the email sender. *)
Definition no_email_since (w0 w : World) : Prop :=
  (length (session w0) ≤ length (session w))%nat ∧
  (∀ i n, session w !! i = Some n → (length (session w0) ≤ i)%nat →
          Notification.notification_type n = PUSH) ∧
  ∃ cs, calls w = calls w0 ++ cs ∧ Forall (fun c => is_email_call c = false) cs.

(** The steps of the consumer before the Orchestrator is called: parsing,
    translation of the message shape, construction of the event. *)
Definition decode (lib : Library) (routing_key body : string)
    : result NotificationEvent.t :=
  match json_loads lib body with
  | None => Raises (Exception JSONDecodeError "Expecting value")
  | Some message =>
      match Consumer.transform_auth_event lib message
              (Consumer.map_routing_key_to_event_type lib routing_key)
              routing_key with
      | Raises e => Raises e
      | Returns transformed_message => Consumer.build_event lib transformed_message
      end
  end.

(** The answer of the consumer to an exception it catches. *)
Definition answer_to (e : exception) : ChannelAction :=
  match exc_class e with
  | ValidationError => BasicReject false
  | _ => BasicNack true
  end.

(** The event of scenario A of the specification. *)
Definition reservation_event : NotificationEvent.t :=
  NotificationEvent.mk "user-1" (Some "a@b.com") None "RESERVATION_CONFIRMED"
    [("parking_name", Py.VStr "Lot1"); ("price", Py.VInt 10)] NORMAL.

(** The same event without an address, with a push token. *)
Definition event_without_email : NotificationEvent.t :=
  NotificationEvent.mk "user-1" None (Some "fcm-token-123") "RESERVATION_CONFIRMED"
    [("parking_name", Py.VStr "Lot1"); ("price", Py.VInt 10)] NORMAL.

(** An active email template that has no subject text. *)
Definition email_template_without_subject : NotificationTemplate.t :=
  NotificationTemplate.mk "RESERVATION_CONFIRMED" EMAIL None None
    "Your reservation at {parking_name} is confirmed." NORMAL 1.

Definition email_template_example : NotificationTemplate.t :=
  NotificationTemplate.mk "RESERVATION_CONFIRMED" EMAIL
    (Some "Reservation Confirmed - {parking_name}") None
    "Your reservation at {parking_name} is confirmed." NORMAL 1.

(** Working collaborators and the given templates. *)
Definition env_with_templates (templates : list NotificationTemplate.t) : Env :=
  {| storage_fault := fun _ => None;
     utcnow := fun k => Z.of_nat k;
     send_email := fun _ _ _ _ => Returns true;
     send_push_notification := fun _ _ _ _ _ => Returns true;
     send_json := fun _ _ _ => true;
     generate_html_template := fun _ body _ => body;
     preferences_table := [];
     templates_table := templates |}.

(** [c.upper()] for an ASCII character; other bytes are left as they
    are. *)
Definition upper_ascii (c : ascii) : ascii :=
  let n := nat_of_ascii c in
  if (97 <=? n)%nat && (n <=? 122)%nat then ascii_of_nat (n - 32) else c.

(** [s.upper()] for a string [s] of ASCII characters. *)
Fixpoint upper_ascii_text (s : string) : string :=
  match s with
  | EmptyString => EmptyString
  | String c s' => String (upper_ascii c) (upper_ascii_text s')
  end.

(** A library whose parser returns the canonical message of the
    reservation event and whose schema accepts it. *)
Definition library_example : Library :=
  {| upper := upper_ascii_text;
     json_loads := fun _ =>
       Some (JObj [ ("user_id", JStr "user-1");
                    ("user_email", JStr "a@b.com");
                    ("event_type", JStr "RESERVATION_CONFIRMED");
                    ("data", JObj [ ("parking_name", JStr "Lot1");
                                    ("price", JInt 10) ]) ]);
     repr_container := fun _ => "{...}";
     uuid5_dns := fun name => name;
     validate := fun _ => Some reservation_event |}.

Definition empty_world : World :=
  {| session := []; manager := ∅; calls := []; tick := 0 |}.

(** The connections of a set on which [send_json] returns. *)
Definition accepting (send_json : WebSocket → bool) (conns : gset WebSocket)
    : gset WebSocket :=
  filter (fun ws => send_json ws = true) conns.

(** What is left of a connection set: [None] when nothing is. *)
Definition kept (conns : gset WebSocket) : option (gset WebSocket) :=
  if decide (conns = ∅) then None else Some conns.


(** Successive runs of the failure handler on one notification: each item
    is the clock reading and the error detail of one run. *)
Definition failures (self : NotificationService)
    (runs : list (datetime * option string)) (n : Notification.t)
    : Notification.t :=
  fold_left
    (fun acc run => Retry._handle_failed_notification self run.1 acc run.2)
    runs n.

(** The registry a send attempt leaves: it is touched only when a push
    notification goes to a connected user, and then by
    [manager.send_notification]. *)
Definition registry_after_send (env : Env) (w : World) (nid : nat)
    : gmap string (gset WebSocket) :=
  match session w !! nid with
  | Some n =>
      match Notification.notification_type n with
      | PUSH =>
          if ConnectionManager.is_user_connected (Notification.user_id n) (manager w)
          then (ConnectionManager.send_notification
                  (fun ws => send_json env (tick w) ws (Service.ws_notification_of n))
                  (Notification.user_id n) (manager w)).2
          else manager w
      | EMAIL => manager w
      end
  | None => manager w
  end.

(** The fields of a notification that say what is sent and to whom, and
    how often it may be tried. *)
Definition content (n : Notification.t) :=
  (Notification.id n, Notification.user_id n, Notification.notification_type n,
   Notification.priority n, Notification.recipient_email n,
   Notification.recipient_fcm_token n, Notification.subject n,
   Notification.title n, Notification.body n, Notification.event_type n,
   Notification.max_retries n, Notification.created_at n).

(** The calls a send attempt makes for a notification. *)
Definition realtime_call (n : Notification.t) : Call :=
  RealtimeCall (Notification.user_id n) (Service.ws_notification_of n).

Definition push_call (n : Notification.t) : Call :=
  PushCall (Notification.recipient_fcm_token n) (Notification.title n)
    (Notification.body n).

Definition email_call (env : Env) (n : Notification.t) : Call :=
  EmailCall (Notification.recipient_email n) (Notification.subject n)
    (generate_html_template env (Notification.subject n)
       (Notification.body n) (Notification.data n)).

(** A push notification that has no push token. *)
Definition push_notification_without_token : Notification.t :=
  Notification.mk 0 "user-1" PUSH PENDING NORMAL None None None (Some "Test")
    "Test body" (Some []) "TEST_EVENT" 0 3 None None 0 None (Some []) false.
(* ===================================================================== *)
(** * Properties: Preference Resolver *)
(* ===================================================================== *)

Section ResolverProperties.
Import Resolver.

Lemma should_send_no_preferences template event_type :
  _should_send_notification None template event_type = true.
Proof. reflexivity. Qed.

Lemma should_send_global_off preferences template event_type :
  channel_enabled preferences (NotificationTemplate.notification_type template) = false →
  _should_send_notification (Some preferences) template event_type = false.
Proof.
  unfold _should_send_notification, channel_enabled.
  destruct (NotificationTemplate.notification_type template); intros ->; reflexivity.
Qed.

Lemma should_send_global_on preferences template event_type :
  channel_enabled preferences (NotificationTemplate.notification_type template) = true →
  _should_send_notification (Some preferences) template event_type
  = default true (override_of preferences event_type
                    (NotificationTemplate.notification_type template)).
Proof.
  unfold _should_send_notification, channel_enabled, override_of.
  destruct (NotificationTemplate.notification_type template); intros ->; simpl;
    destruct (UserNotificationPreference.event_preferences preferences) as [ov|];
    simpl; try reflexivity;
    destruct (ov !! event_type) as [event_pref|]; simpl; try reflexivity;
    match goal with |- context [event_pref !! ?k] => destruct (event_pref !! k) end;
    reflexivity.
Qed.

(** C1, as stated, fails: with push switched off globally and the event's
    override giving [true] for "push", the resolver answers [false] for a
    push template. *)
Lemma override_true_does_not_reenable :
  UserNotificationPreference.push_enabled push_off_override_on = 0 ∧
  override_of push_off_override_on "RESERVATION_CONFIRMED" PUSH = Some true ∧
  NotificationTemplate.notification_type push_template_example = PUSH ∧
  _should_send_notification (Some push_off_override_on) push_template_example
    "RESERVATION_CONFIRMED" = false.
Proof. repeat split; vm_compute; reflexivity. Qed.

(** C1, amended: when the record holds a boolean override for the event
    type and the template's channel, the resolver returns that boolean
    only if the channel's global flag is on; with the global flag off it
    returns [false] whatever the override says.  So an override of [false]
    wins over a global flag that is on, for both channels, and an override
    of [true] never re-enables a channel that is switched off. *)
Theorem should_send_override preferences template event_type b :
  override_of preferences event_type
    (NotificationTemplate.notification_type template) = Some b →
  _should_send_notification (Some preferences) template event_type
  = channel_enabled preferences (NotificationTemplate.notification_type template) && b.
Proof.
  intros Hov.
  destruct (channel_enabled preferences
              (NotificationTemplate.notification_type template)) eqn:Hflag.
  - rewrite should_send_global_on, Hov by exact Hflag. reflexivity.
  - rewrite should_send_global_off by exact Hflag. reflexivity.
Qed.

Lemma should_send_override_witness :
  _should_send_notification (Some push_off_override_on) push_template_example
    "RESERVATION_CONFIRMED"
  = channel_enabled push_off_override_on PUSH && true.
Proof.
  apply (should_send_override push_off_override_on push_template_example
           "RESERVATION_CONFIRMED" true).
  vm_compute. reflexivity.
Defined.

End ResolverProperties.

(* ===================================================================== *)
(** * Properties: Retry State Machine *)
(* ===================================================================== *)

(** Case analysis on the two tests of the failure handler. *)
Ltac handler_cases :=
  unfold Retry._handle_failed_notification; cbn;
  repeat (case_match; cbn in *); try reflexivity; try congruence.

Section RetryProperties.
Import Retry.
Variable self : NotificationService.

Lemma handle_failed_retry_count now n err :
  Notification.retry_count (_handle_failed_notification self now n err)
  = Notification.retry_count n + 1.
Proof.
  handler_cases.
Qed.

Lemma handle_failed_max_retries now n err :
  Notification.max_retries (_handle_failed_notification self now n err)
  = Notification.max_retries n.
Proof.
  handler_cases.
Qed.

Lemma handle_failed_status now n err :
  Notification.status (_handle_failed_notification self now n err)
  = if Notification.retry_count n + 1 <? Notification.max_retries n
    then RETRYING else FAILED.
Proof.
  handler_cases.
Qed.

Lemma handle_failed_next_retry_at now n err :
  Notification.next_retry_at (_handle_failed_notification self now n err)
  = if Notification.retry_count n + 1 <? Notification.max_retries n
    then Some (now + timedelta_seconds
                       (retry_delay self * (Notification.retry_count n + 1)))
    else Notification.next_retry_at n.
Proof.
  handler_cases.
Qed.

Lemma handle_failed_error_message now n err :
  Notification.error_message (_handle_failed_notification self now n err)
  = if Py.truthy_str err then err else Notification.error_message n.
Proof.
  handler_cases.
Qed.

Lemma handle_failed_data now n err :
  Notification.data (_handle_failed_notification self now n err)
  = Notification.data n.
Proof.
  handler_cases.
Qed.

Lemma handle_failed_notification_type now n err :
  Notification.notification_type (_handle_failed_notification self now n err)
  = Notification.notification_type n.
Proof.
  handler_cases.
Qed.

(** C3: the failure handler adds exactly one to [retry_count]; when the
    new count is below [max_retries] the status becomes RETRYING and
    [next_retry_at] is the clock reading plus [retry_delay] seconds times
    the new count (linear in the count); when the new count equals
    [max_retries] the status becomes FAILED and the handler schedules
    nothing ([next_retry_at] is left as it was). *)
Theorem handle_failed_transition now n err :
  let n' := _handle_failed_notification self now n err in
  Notification.retry_count n' = Notification.retry_count n + 1 ∧
  (Notification.retry_count n' < Notification.max_retries n' →
     Notification.status n' = RETRYING ∧
     Notification.next_retry_at n'
     = Some (now + timedelta_seconds (retry_delay self * Notification.retry_count n'))) ∧
  (Notification.retry_count n' = Notification.max_retries n' →
     Notification.status n' = FAILED ∧
     Notification.next_retry_at n' = Notification.next_retry_at n).
Proof.
  intros n'. subst n'.
  rewrite handle_failed_retry_count, handle_failed_max_retries,
    handle_failed_status, handle_failed_next_retry_at.
  split; [reflexivity|]. split; intros H.
  - apply Z.ltb_lt in H. rewrite H. split; reflexivity.
  - assert (Hge : (Notification.retry_count n + 1 <? Notification.max_retries n) = false)
      by (apply Z.ltb_ge; lia).
    rewrite Hge. split; reflexivity.
Qed.

(** The delays of successive retries grow by the same amount each time. *)
Lemma backoff_is_linear (k : Z) :
  timedelta_seconds (retry_delay self * (k + 1))
  - timedelta_seconds (retry_delay self * k)
  = timedelta_seconds (retry_delay self).
Proof. unfold timedelta_seconds. lia. Qed.

End RetryProperties.

(* ===================================================================== *)
(** * Properties: Template Renderer *)
(* ===================================================================== *)

Section StringFacts.
Import Py.

Lemma append_cons x (a b : string) : String x a +:+ b = String x (a +:+ b).
Proof. reflexivity. Qed.

Lemma append_assoc (a b c : string) : (a +:+ b) +:+ c = a +:+ (b +:+ c).
Proof.
  induction a as [|x a IH]; [reflexivity|].
  by rewrite !append_cons, IH.
Qed.

Lemma prefix_cons a s1 b s2 :
  String.prefix (String a s1) (String b s2)
  = if Ascii.eqb a b then String.prefix s1 s2 else false.
Proof.
  simpl. destruct (ascii_dec a b) as [->|Hne].
  - by rewrite Ascii.eqb_refl.
  - apply Ascii.eqb_neq in Hne. by rewrite Hne.
Qed.

Lemma prefix_append (old s : string) : String.prefix old (old +:+ s) = true.
Proof.
  induction old as [|c old IH]; [by destruct s|].
  change (String c old +:+ s) with (String c (old +:+ s)).
  by rewrite prefix_cons, Ascii.eqb_refl.
Qed.

(** The rest of a matched occurrence is dropped. *)
Lemma replace_from_skip old new (r s : string) :
  replace_from old new (String.length r) (r +:+ s) = replace_from old new 0 s.
Proof.
  induction r as [|c r IH]; simpl.
  - by destruct s.
  - exact IH.
Qed.

(** [replace] at an occurrence of [old]. *)
Lemma replace_from_hit c old new (s : string) :
  replace_from (String c old) new 0 (String c old +:+ s)
  = new +:+ replace_from (String c old) new 0 s.
Proof.
  change (String c old +:+ s) with (String c (old +:+ s)).
  cbn [replace_from].
  change (String c (old +:+ s)) with (String c old +:+ s).
  rewrite prefix_append.
  replace (String.length (String c old) - 1)%nat with (String.length old)
    by (cbn [String.length]; lia).
  by rewrite replace_from_skip.
Qed.

(** [replace] where no occurrence of [old] starts. *)
Lemma replace_from_miss old new c (s : string) :
  String.prefix old (String c s) = false →
  replace_from old new 0 (String c s) = String c (replace_from old new 0 s).
Proof. intros H. cbn [replace_from]. by rewrite H. Qed.

(** Text without the first character of [old] is copied. *)
Lemma replace_from_text c old new (s rest : string) :
  lacks c s = true →
  replace_from (String c old) new 0 (s +:+ rest)
  = s +:+ replace_from (String c old) new 0 rest.
Proof.
  induction s as [|x s IH]; intros Hs; [reflexivity|].
  simpl in Hs. apply andb_prop in Hs as [Hx Hs].
  change (String x s +:+ rest) with (String x (s +:+ rest)).
  rewrite replace_from_miss.
  - rewrite IH by exact Hs. reflexivity.
  - rewrite prefix_cons, Ascii.eqb_sym.
    by destruct (Ascii.eqb x c).
Qed.

Lemma lacks_head c x (s : string) :
  lacks c (String x s) = true → Ascii.eqb x c = false ∧ lacks c s = true.
Proof.
  simpl. intros H. apply andb_prop in H as [Hx Hs].
  split; [by destruct (Ascii.eqb x c) | exact Hs].
Qed.

(** Two keys without a closing brace that agree up to the closing brace
    are the same key. *)
Lemma closed_key_prefix (k k' rest : string) :
  lacks "}" k = true → lacks "}" k' = true →
  String.prefix (k +:+ "}") ((k' +:+ "}") +:+ rest) = true → k = k'.
Proof.
  revert k'. induction k as [|c k IH]; intros [|c' k'] Hk Hk' Hp.
  - reflexivity.
  - apply lacks_head in Hk' as [Hc' _].
    change (String.prefix (String "}" EmptyString)
              (String c' ((k' +:+ "}") +:+ rest)) = true) in Hp.
    rewrite prefix_cons, Ascii.eqb_sym, Hc' in Hp. discriminate.
  - apply lacks_head in Hk as [Hc _].
    change (String.prefix (String c (k +:+ "}"))
              (String "}" rest) = true) in Hp.
    rewrite prefix_cons, Hc in Hp. discriminate.
  - apply lacks_head in Hk as [_ Hk]. apply lacks_head in Hk' as [_ Hk'].
    change (String.prefix (String c (k +:+ "}"))
              (String c' ((k' +:+ "}") +:+ rest)) = true) in Hp.
    rewrite prefix_cons in Hp.
    destruct (Ascii.eqb c c') eqn:Hcc; [|discriminate].
    apply Ascii.eqb_eq in Hcc as ->.
    f_equal. by apply (IH k').
Qed.

End StringFacts.

Section RendererProperties.
Import Py Renderer.

Lemma placeholder_cons key : placeholder key = String "{" (key +:+ "}").
Proof. reflexivity. Qed.

Lemma brace_free_lacks key :
  brace_free key = true → lacks "{" key = true ∧ lacks "}" key = true.
Proof. unfold brace_free. intros H. by apply andb_prop in H. Qed.

(** One replacement acts on a well-formed template segment by segment. *)
Lemma replace_unparse key new (segs : list segment) :
  Forall (fun seg => plain_segment seg = true) segs →
  brace_free key = true →
  replace (unparse segs) (placeholder key) new
  = unparse (map (substitute key new) segs).
Proof.
  intros Hsegs Hkey. apply brace_free_lacks in Hkey as [_ Hkey].
  rewrite placeholder_cons. unfold replace.
  induction Hsegs as [|seg segs Hseg _ IH]; [reflexivity|].
  destruct seg as [s|key']; cbn [map unparse unparse_segment substitute].
  - simpl in Hseg. rewrite replace_from_text by exact Hseg.
    by rewrite IH.
  - simpl in Hseg. apply brace_free_lacks in Hseg as [Hopen Hclose].
    destruct (String.eqb key' key) eqn:Heq.
    + apply String.eqb_eq in Heq as ->.
      rewrite placeholder_cons, replace_from_hit, IH. reflexivity.
    + apply String.eqb_neq in Heq.
      rewrite placeholder_cons, append_cons.
      rewrite replace_from_miss.
      * rewrite append_assoc, replace_from_text by exact Hopen.
        rewrite append_cons, replace_from_miss by reflexivity.
        change (EmptyString +:+ unparse segs) with (unparse segs).
        rewrite IH. cbn [unparse_segment].
        rewrite placeholder_cons, append_cons, append_assoc. reflexivity.
      * rewrite prefix_cons, Ascii.eqb_refl.
        destruct (String.prefix _ _) eqn:Hp; [|reflexivity].
        apply closed_key_prefix in Hp; [congruence | assumption | assumption].
Qed.

Lemma substitute_plain key new seg :
  lacks "{" new = true → plain_segment seg = true →
  plain_segment (substitute key new seg) = true.
Proof.
  intros Hnew Hseg. destruct seg as [s|key']; [exact Hseg|].
  simpl. by destruct (String.eqb key' key).
Qed.

Lemma resolve_substitute key v data seg :
  resolve data (substitute key (str v) seg) = resolve ((key, v) :: data) seg.
Proof.
  destruct seg as [s|key']; [reflexivity|].
  cbn [substitute resolve dict_get].
  rewrite (String.eqb_sym key key').
  by destruct (String.eqb key' key).
Qed.

Lemma resolve_empty seg : resolve [] seg = seg.
Proof. by destruct seg. Qed.

Lemma map_resolve_empty (segs : list segment) : map (resolve []) segs = segs.
Proof.
  induction segs as [|seg segs IH]; [reflexivity|].
  cbn [map]. by rewrite resolve_empty, IH.
Qed.

(** Rendering a well-formed template with well-formed data resolves it
    segment by segment. *)
Lemma render_segments (data : dict value) (segs : list segment) :
  Forall (fun seg => plain_segment seg = true) segs →
  Forall (fun item => plain_item item = true) data →
  _replace_placeholders (unparse segs) data = unparse (map (resolve data) segs).
Proof.
  intros Hsegs Hdata. revert segs Hsegs.
  induction Hdata as [|[key v] data Hitem _ IH]; intros segs Hsegs.
  - cbn [_replace_placeholders fold_left].
    by rewrite map_resolve_empty.
  - unfold plain_item in Hitem. cbn [fst snd] in Hitem.
    apply andb_prop in Hitem as [Hkey Hval].
    unfold _replace_placeholders. cbn [fold_left].
    rewrite replace_unparse by assumption.
    fold (_replace_placeholders (unparse (map (substitute key (str v)) segs)) data).
    rewrite IH.
    + rewrite map_map. f_equal. apply map_ext. intros seg.
      apply resolve_substitute.
    + apply Forall_map. eapply Forall_impl; [exact Hsegs|].
      intros seg. cbn. by apply substitute_plain.
Qed.

Lemma resolve_plain data seg :
  Forall (fun item => plain_item item = true) data →
  plain_segment seg = true → plain_segment (resolve data seg) = true.
Proof.
  intros Hdata Hseg. destruct seg as [s|key]; [exact Hseg|].
  cbn [resolve]. destruct (dict_get data key) as [v|] eqn:Hget; [|exact Hseg].
  cbn [plain_segment].
  induction Hdata as [|[k w] data Hitem _ IH]; [discriminate|].
  cbn [dict_get] in Hget. destruct (String.eqb k key).
  - injection Hget as ->. unfold plain_item in Hitem.
    by apply andb_prop in Hitem as [_ Hv].
  - by apply IH.
Qed.

Lemma resolve_idempotent data seg :
  resolve data (resolve data seg) = resolve data seg.
Proof.
  destruct seg as [s|key]; [reflexivity|].
  cbn [resolve]. destruct (dict_get data key) eqn:Hget; [reflexivity|].
  cbn [resolve]. by rewrite Hget.
Qed.

End RendererProperties.

Section RendererClaims.
Import Py Renderer.

(** C5, as stated, fails: the template is the single placeholder [{a}],
    the key [a] is present with the string form [{b}], and yet the output
    is not [{b}]: the replacement made for the later key [b] rewrites the
    text inserted for [a]. *)
Lemma render_rewrites_inserted_text :
  unparse [Placeholder "a"] = "{a}" ∧
  dict_get nested_data "a" = Some (VStr "{b}") ∧
  _replace_placeholders "{a}" nested_data = "x" ∧
  _replace_placeholders (unparse [Placeholder "a"]) nested_data
  ≠ unparse (map (resolve nested_data) [Placeholder "a"]).
Proof. repeat split; vm_compute; congruence. Qed.

(** C5, amended: for a template in which every opening brace opens a
    [{key}] placeholder whose key holds no brace, and a data map whose
    keys hold no brace and whose values' string forms hold no opening
    brace, rendering replaces every placeholder whose key is present by
    the string form of its value and leaves every placeholder whose key is
    absent, and all literal text, verbatim. *)
Theorem render_resolves_placeholders (data : dict value) (segs : list segment) :
  Forall (fun seg => plain_segment seg = true) segs →
  Forall (fun item => plain_item item = true) data →
  _replace_placeholders (unparse segs) data = unparse (map (resolve data) segs).
Proof. apply render_segments. Qed.

Lemma render_resolves_placeholders_witness :
  _replace_placeholders "Hello {name}, your order {order_id} is ready" order_data
  = "Hello John, your order {order_id} is ready".
Proof.
  exact (render_resolves_placeholders order_data order_template
           ltac:(repeat constructor) ltac:(repeat constructor)).
Defined.

(** C6, as stated, fails: with the same two items in the other order, a
    first rendering of [{a}] gives [{b}] and a second one gives [x]. *)
Lemma render_twice_differs :
  _replace_placeholders "{a}" nested_data_reversed = "{b}" ∧
  _replace_placeholders (_replace_placeholders "{a}" nested_data_reversed)
    nested_data_reversed = "x" ∧
  _replace_placeholders (_replace_placeholders "{a}" nested_data_reversed)
    nested_data_reversed
  ≠ _replace_placeholders "{a}" nested_data_reversed.
Proof. repeat split; vm_compute; congruence. Qed.

(** C6, amended: for a template in which every opening brace opens a
    [{key}] placeholder whose key holds no brace, and a data map whose
    keys hold no brace and whose values' string forms hold no opening
    brace, rendering the rendered output again with the same data map
    gives the same string. *)
Theorem render_idempotent (data : dict value) (segs : list segment) :
  Forall (fun seg => plain_segment seg = true) segs →
  Forall (fun item => plain_item item = true) data →
  _replace_placeholders (_replace_placeholders (unparse segs) data) data
  = _replace_placeholders (unparse segs) data.
Proof.
  intros Hsegs Hdata.
  rewrite (render_segments data segs Hsegs Hdata).
  rewrite render_segments; [| |exact Hdata].
  - rewrite map_map. f_equal. apply map_ext. intros seg.
    apply resolve_idempotent.
  - apply Forall_map. eapply Forall_impl; [exact Hsegs|].
    intros seg. cbn. by apply resolve_plain.
Qed.

Lemma render_idempotent_witness :
  _replace_placeholders
    (_replace_placeholders "Hello {name}, your order {order_id} is ready" order_data)
    order_data
  = _replace_placeholders "Hello {name}, your order {order_id} is ready" order_data.
Proof.
  exact (render_idempotent order_data order_template
           ltac:(repeat constructor) ltac:(repeat constructor)).
Defined.

End RendererClaims.

(* ===================================================================== *)
(** * Properties: the connection registry *)
(* ===================================================================== *)

Section RegistryProperties.
Import ConnectionManager.
Implicit Types (m : gmap string (gset WebSocket)) (conns : gset WebSocket).

Lemma registry_ok_init : registry_ok init.
Proof. intros u conns H. unfold init in H. by rewrite lookup_empty in H. Qed.

(** Storing a non-empty set, or deleting the key, keeps the invariant. *)
Lemma registry_ok_insert m user_id conns :
  registry_ok m → conns ≠ ∅ → registry_ok (<[user_id := conns]> m).
Proof.
  intros Hm Hne u c. rewrite lookup_insert.
  case_decide; [congruence | apply Hm].
Qed.

Lemma registry_ok_delete m user_id :
  registry_ok m → registry_ok (delete user_id m).
Proof.
  intros Hm u c. rewrite lookup_delete.
  case_decide; [discriminate | apply Hm].
Qed.

(** What [disconnect] and [send_notification] do once the user's set has
    been updated. *)
Lemma registry_ok_store m user_id conns :
  registry_ok m →
  registry_ok (if decide (conns = ∅) then delete user_id m
               else <[user_id := conns]> m).
Proof.
  intros Hm. case_decide.
  - by apply registry_ok_delete.
  - by apply registry_ok_insert.
Qed.

Lemma connect_ok accepted websocket user_id m :
  registry_ok m → registry_ok (connect accepted websocket user_id m).
Proof.
  intros Hm. unfold connect. destruct accepted; [|exact Hm].
  destruct (m !! user_id) as [conns|] eqn:Hu.
  - rewrite Hu. apply registry_ok_insert; [exact Hm | set_solver].
  - rewrite lookup_insert_eq. rewrite insert_insert_eq.
    apply registry_ok_insert; [exact Hm | set_solver].
Qed.

Lemma disconnect_ok websocket user_id m :
  registry_ok m → registry_ok (disconnect websocket user_id m).
Proof.
  intros Hm. unfold disconnect.
  destruct (m !! user_id); [by apply registry_ok_store | exact Hm].
Qed.

Lemma send_notification_ok send_json user_id m :
  registry_ok m → registry_ok (send_notification send_json user_id m).2.
Proof.
  intros Hm. unfold send_notification.
  destruct (m !! user_id); [|exact Hm].
  destruct (send_loop send_json g) as [disconnected sent_count].
  by apply registry_ok_store.
Qed.

Lemma lookup_delete_all (users : list string) m user_id :
  fold_left (fun m u => delete u m) users m !! user_id
  = if decide (user_id ∈ users) then None else m !! user_id.
Proof.
  revert m. induction users as [|u users IH]; intros m; cbn [fold_left].
  - case_decide as H; [by apply elem_of_nil in H | reflexivity].
  - rewrite IH. rewrite lookup_delete.
    destruct (decide (user_id ∈ users)) as [Hin|Hin].
    + symmetry. apply decide_True. by apply list_elem_of_further.
    + destruct (decide (u = user_id)) as [->|Hne]; symmetry.
      * apply decide_True. apply list_elem_of_here.
      * apply decide_False. intros Hin'.
        apply elem_of_cons in Hin' as [->|Hin']; [by apply Hne | by apply Hin].
Qed.

Lemma broadcast_ok send_json m : registry_ok (broadcast send_json m).
Proof.
  intros u conns. unfold broadcast. rewrite lookup_delete_all.
  case_decide as Hin; [discriminate|].
  intros Hu ->. apply Hin.
  apply list_elem_of_fmap. exists (u, ∅). split; [reflexivity|].
  apply elem_of_map_to_list. apply map_lookup_filter_Some. by split.
Qed.

Lemma is_user_connected_key m user_id :
  registry_ok m →
  is_user_connected user_id m = true ↔ is_Some (m !! user_id).
Proof.
  intros Hm. unfold is_user_connected.
  destruct (m !! user_id) as [conns|] eqn:Hu.
  - split; [eauto|]. intros _. apply bool_decide_eq_true.
    specialize (Hm _ _ Hu).
    destruct (decide (size conns = 0)%nat) as [Hz|Hz]; [|lia].
    apply size_empty_iff in Hz. by apply leibniz_equiv in Hz.
  - split; [discriminate | by intros [? ?]].
Qed.

(** C10: every operation of the registry keeps the invariant that a user
    who is a key of the map has a non-empty connection set, and under the
    invariant [is_user_connected] holds exactly of the keys of the map. *)
Theorem registry_invariant m :
  registry_ok m →
  (∀ accepted websocket user_id,
     registry_ok (connect accepted websocket user_id m)) ∧
  (∀ websocket user_id, registry_ok (disconnect websocket user_id m)) ∧
  (∀ send_json user_id,
     registry_ok (send_notification send_json user_id m).2) ∧
  (∀ send_json, registry_ok (broadcast send_json m)) ∧
  (∀ user_id, is_user_connected user_id m = true ↔ is_Some (m !! user_id)).
Proof.
  intros Hm. repeat split.
  - intros. by apply connect_ok.
  - intros. by apply disconnect_ok.
  - intros. by apply send_notification_ok.
  - intros. by apply broadcast_ok.
  - by apply is_user_connected_key.
  - by apply is_user_connected_key.
Qed.

(** The counter of the send loop never decreases, and grows when one
    connection takes the message. *)
Lemma send_loop_step_count send_json (l : list WebSocket) disconnected count :
  (count ≤ (fold_left (send_step send_json) l (disconnected, count)).2)%nat
  ∧ ((∃ ws, ws ∈ l ∧ send_json ws = true) →
     (count < (fold_left (send_step send_json) l (disconnected, count)).2)%nat).
Proof.
  revert disconnected count.
  induction l as [|x l IH]; intros disconnected count; cbn [fold_left send_step].
  - split; [cbn; lia|]. intros (ws & Hin & _). by apply elem_of_nil in Hin.
  - destruct (send_json x) eqn:Hx.
    + destruct (IH disconnected (S count)) as [Hle _].
      split; [lia|]. intros _. lia.
    + destruct (IH ({[x]} ∪ disconnected) count) as [Hle Hlt].
      split; [exact Hle|]. intros (ws & Hin & Hws).
      apply Hlt. exists ws. split; [|exact Hws].
      apply elem_of_cons in Hin as [->|Hin]; [congruence | exact Hin].
Qed.

(** [send_notification] answers [true] when one of the user's connections
    takes the message. *)
Lemma send_notification_accepted send_json user_id m conns ws :
  m !! user_id = Some conns → ws ∈ conns → send_json ws = true →
  (send_notification send_json user_id m).1 = true.
Proof.
  intros Hu Hin Hws. unfold send_notification. rewrite Hu.
  pose proof (send_loop_step_count send_json (elements conns) ∅ 0%nat) as [_ Hlt].
  unfold send_loop.
  destruct (fold_left _ _ _) as [disconnected sent_count] eqn:Hloop.
  cbn [fst snd] in *. apply bool_decide_eq_true. apply Hlt.
  exists ws. split; [by apply elem_of_elements | exact Hws].
Qed.

Lemma registry_example_ok : registry_ok registry_example.
Proof. do 3 apply connect_ok. apply registry_ok_init. Qed.

Lemma registry_invariant_witness :
  registry_ok (disconnect 5%nat "u" registry_example) ∧
  (is_user_connected "u" registry_example = true
   ↔ is_Some (registry_example !! "u")).
Proof.
  pose proof (registry_invariant registry_example registry_example_ok)
    as (_ & Hd & _ & _ & Hc).
  split; [apply Hd | apply Hc].
Defined.

End RegistryProperties.

(* ===================================================================== *)
(** * Reasoning about computations *)
(* ===================================================================== *)

Section WpRules.
Import Run.
Context {A B : Type}.
Implicit Types (env : Env) (w : World).

Lemma wp_ret (a : A) env w Q : Q (Returns a) w → wp (ret a) env w Q.
Proof. exact id. Qed.

Lemma wp_raise (e : exception) env w (Q : result A → World → Prop) :
  Q (Raises e) w → wp (raise e) env w Q.
Proof. exact id. Qed.

Lemma wp_bind (m : M A) (k : A → M B) env w Q :
  wp m env w (fun r w' =>
    match r with
    | Returns a => wp (k a) env w' Q
    | Raises e => Q (Raises e) w'
    end) →
  wp (bind m k) env w Q.
Proof. unfold wp, bind. by destruct (m env w) as [[a|e] w']. Qed.

Lemma wp_try_except (m : M A) (handler : exception → M A) env w Q :
  wp m env w (fun r w' =>
    match r with
    | Returns a => Q (Returns a) w'
    | Raises e => wp (handler e) env w' Q
    end) →
  wp (try_except m handler) env w Q.
Proof. unfold wp, try_except. by destruct (m env w) as [[a|e] w']. Qed.

Lemma wp_try_finally (m : M A) (f : M unit) env w Q :
  wp m env w (fun r w' =>
    wp f env w' (fun rf w'' =>
      match rf with
      | Returns _ => Q r w''
      | Raises e => Q (Raises e) w''
      end)) →
  wp (try_finally m f) env w Q.
Proof.
  unfold wp, try_finally. destruct (m env w) as [r w']. cbn.
  by destruct (f env w') as [[u|e] w''].
Qed.

Lemma wp_mono (m : M A) env w (Q Q' : result A → World → Prop) :
  (∀ r w', Q r w' → Q' r w') → wp m env w Q → wp m env w Q'.
Proof. unfold wp. auto. Qed.

End WpRules.

Section WpPrimitives.
Import Run Service.
Implicit Types (env : Env) (w : World).

Lemma wp_ask env w Q : Q (Returns env) w → wp ask env w Q.
Proof. exact id. Qed.

Lemma wp_get env w Q : Q (Returns w) w → wp get env w Q.
Proof. exact id. Qed.

Lemma wp_put w0 env w Q : Q (Returns tt) w0 → wp (put w0) env w Q.
Proof. exact id. Qed.

Lemma wp_next_tick env w Q :
  Q (Returns (tick w))
    {| session := session w; manager := manager w; calls := calls w;
       tick := S (tick w) |} →
  wp next_tick env w Q.
Proof. exact id. Qed.

Lemma wp_db_call env w Q :
  (∀ w', session w' = session w → manager w' = manager w →
         calls w' = calls w → tick w' = S (tick w) →
         match storage_fault env (tick w) with
         | Some msg => Q (Raises (Exception OtherError msg)) w'
         | None => Q (Returns tt) w'
         end) →
  wp db_call env w Q.
Proof.
  intros H. unfold wp, db_call, bind, ask, next_tick, get, put, ret. cbn.
  specialize (H {| session := session w; manager := manager w;
                   calls := calls w; tick := S (tick w) |}
                eq_refl eq_refl eq_refl eq_refl).
  by destruct (storage_fault env (tick w)).
Qed.

Lemma wp_now env w Q : Q (Returns (utcnow env (tick w))) w → wp now env w Q.
Proof. exact id. Qed.

Lemma wp_record_call c env w Q :
  Q (Returns tt)
    {| session := session w; manager := manager w; calls := calls w ++ [c];
       tick := tick w |} →
  wp (record_call c) env w Q.
Proof. exact id. Qed.

Lemma wp_update_notification nid f env w Q :
  Q (Returns tt)
    {| session := alter f nid (session w); manager := manager w;
       calls := calls w; tick := tick w |} →
  wp (update_notification nid f) env w Q.
Proof. exact id. Qed.

Lemma wp_notification_of nid n env w Q :
  session w !! nid = Some n →
  Q (Returns n) w → wp (notification_of nid) env w Q.
Proof.
  intros Hn HQ. unfold wp, notification_of, bind, get. cbn. by rewrite Hn.
Qed.

Lemma db_call_eq env w :
  db_call env w
  = (match storage_fault env (tick w) with
     | Some msg => Raises (Exception OtherError msg)
     | None => Returns tt
     end,
     {| session := session w; manager := manager w; calls := calls w;
        tick := S (tick w) |}).
Proof.
  unfold db_call, bind, ask, next_tick, get, put, ret, raise. cbn.
  by destruct (storage_fault env (tick w)).
Qed.

Lemma wp_db_call_exact env w (Q : result unit → World → Prop) :
  match storage_fault env (tick w) with
  | Some msg =>
      Q (Raises (Exception OtherError msg))
        {| session := session w; manager := manager w; calls := calls w;
           tick := S (tick w) |}
  | None =>
      Q (Returns tt)
        {| session := session w; manager := manager w; calls := calls w;
           tick := S (tick w) |}
  end →
  wp db_call env w Q.
Proof.
  intros H. unfold wp. rewrite db_call_eq. cbn [fst snd].
  by destruct (storage_fault env (tick w)).
Qed.

End WpPrimitives.

(** One step of symbolic execution of a computation. *)
Ltac wp_step :=
  lazymatch goal with
  | |- wp (Run.bind _ _) _ _ _ => apply wp_bind
  | |- wp (Run.ret _) _ _ _ => apply wp_ret
  | |- wp (Run.raise _) _ _ _ => apply wp_raise
  | |- wp Run.ask _ _ _ => apply wp_ask
  | |- wp Run.get _ _ _ => apply wp_get
  | |- wp (Run.put _) _ _ _ => apply wp_put
  | |- wp Service.next_tick _ _ _ => apply wp_next_tick
  | |- wp Service.now _ _ _ => apply wp_now
  | |- wp (Service.record_call _) _ _ _ => apply wp_record_call
  | |- wp (Service.update_notification _ _) _ _ _ =>
      apply wp_update_notification
  | |- wp (match ?x with _ => _ end) _ _ _ => destruct x eqn:?
  end; cbv beta iota; cbn [session manager calls tick].

(** Symbolic execution to the end, with a case split at every storage
    call. *)
Ltac wp_run :=
  repeat first
    [ wp_step
    | apply wp_db_call_exact; cbn [session manager calls tick]
    | lazymatch goal with
      | |- match storage_fault ?e ?k with _ => _ end =>
          destruct (storage_fault e k) eqn:?
      end; cbv beta iota ].

(* ===================================================================== *)
(** * Properties: one send attempt *)
(* ===================================================================== *)

Section SendProperties.
Import Py Run Service.
Variable self : NotificationService.
Implicit Types (env : Env) (w : World) (n : Notification.t).

Lemma alter_as_insert (f : Notification.t → Notification.t)
    (l : list Notification.t) nid n :
  l !! nid = Some n → alter f nid l = <[nid := f n]> l.
Proof.
  intros Hn. apply list_eq. intros i.
  destruct (decide (nid = i)) as [<-|Hne].
  - rewrite list_lookup_alter_eq, Hn.
    rewrite list_lookup_insert_eq by (by eapply lookup_lt_Some). reflexivity.
  - by rewrite list_lookup_alter_ne, list_lookup_insert_ne.
Qed.

Lemma alter_alter (f g : Notification.t → Notification.t)
    (l : list Notification.t) nid :
  alter g nid (alter f nid l) = alter (fun n => g (f n)) nid l.
Proof.
  apply list_eq. intros i. destruct (decide (nid = i)) as [<-|Hne].
  - rewrite !list_lookup_alter_eq. by destruct (l !! nid).
  - by rewrite !list_lookup_alter_ne.
Qed.

(** What the body of the [try] does to the notification it sends, and
    which calls it makes. *)
Lemma attempt_spec env w nid n :
  session w !! nid = Some n →
  wp (attempt self nid) env w (fun r w1 =>
    ∃ n1 cs, session w1 = <[nid := n1]> (session w) ∧
             calls w1 = calls w ++ cs ∧
             attempt_result self env n r n1 cs).
Proof.
  intros Hn. unfold attempt.
  apply wp_bind. apply (wp_notification_of nid n); [exact Hn|].
  unfold email_send, push_send, manager_send_notification, handle_failed,
    set_manager, commit.
  wp_run.
  all: rewrite ?alter_alter.
  all: try rewrite (alter_as_insert _ _ _ _ Hn) in *.
  all: rewrite <- ?app_assoc in *; cbn [app] in *.
  all: eexists _, _;
    (split; [first [reflexivity | symmetry; apply list_insert_id, Hn]|]);
    (split; [first [reflexivity | symmetry; apply app_nil_r]|]).
  all: repeat match goal with
         | H : negb ?b && _ = true |- _ =>
             destruct b; cbn in H; [discriminate H|]
         end.
  all: unfold attempt_result, delivered_by, calls_of_attempt, committed;
    repeat match goal with H : Notification.notification_type _ = _ |- _ =>
             rewrite H end.
  all: first
    [ left; eexists _, true; cbv beta iota; split; [by eauto 6|]; by eauto 10
    | left; eexists _, false; cbv beta iota; split; [by eauto 6|]; by eauto 10
    | right; left; eexists; split; [by eauto 6|]; by eauto 10
    | right; right; split; [reflexivity|]; split; by eauto 6 ].
Qed.

Lemma dict_get_set {V} (d : dict V) key (v : V) :
  dict_get (dict_set d key v) key = Some v.
Proof.
  induction d as [|[k x] d IH]; cbn [dict_set dict_get].
  - by rewrite String.eqb_refl.
  - destruct (String.eqb k key) eqn:Hk; cbn [dict_get]; rewrite Hk; [reflexivity | exact IH].
Qed.

Lemma mark_sent_status t via n : Notification.status (mark_sent t via n) = SENT.
Proof. unfold mark_sent. by destruct (truthy_items _). Qed.

Lemma mark_sent_sent_via t via n : sent_via (mark_sent t via n) = Some (provenance n via).
Proof.
  unfold sent_via, mark_sent, provenance.
  destruct (truthy_items _); cbn; first [apply dict_get_set | reflexivity].
Qed.

Lemma mark_sent_error_message t via n :
  Notification.error_message (mark_sent t via n) = Notification.error_message n.
Proof. unfold mark_sent. by destruct (truthy_items _). Qed.

Lemma mark_sent_notification_type t via n :
  Notification.notification_type (mark_sent t via n)
  = Notification.notification_type n.
Proof. unfold mark_sent. by destruct (truthy_items _). Qed.

Lemma mark_sent_retry_count t via n :
  Notification.retry_count (mark_sent t via n) = Notification.retry_count n.
Proof. unfold mark_sent. by destruct (truthy_items _). Qed.

Lemma mark_sent_max_retries t via n :
  Notification.max_retries (mark_sent t via n) = Notification.max_retries n.
Proof. unfold mark_sent. by destruct (truthy_items _). Qed.

Lemma mark_sent_sent_at t via n :
  Notification.sent_at (mark_sent t via n) = Some t.
Proof. unfold mark_sent. by destruct (truthy_items _). Qed.

(** A commit changes nothing but the payload. *)
Lemma refresh_status n :
  Notification.status (Notification.refresh n) = Notification.status n.
Proof. reflexivity. Qed.

Lemma refresh_retry_count n :
  Notification.retry_count (Notification.refresh n) = Notification.retry_count n.
Proof. reflexivity. Qed.


Lemma refresh_error_message n :
  Notification.error_message (Notification.refresh n)
  = Notification.error_message n.
Proof. reflexivity. Qed.

Lemma refresh_notification_type n :
  Notification.notification_type (Notification.refresh n)
  = Notification.notification_type n.
Proof. reflexivity. Qed.

Lemma refresh_sent_at n :
  Notification.sent_at (Notification.refresh n) = Notification.sent_at n.
Proof. reflexivity. Qed.

Lemma committed_cases env m r n1 :
  committed env m r n1 → n1 = m ∨ n1 = Notification.refresh m.
Proof. intros [[_ ->] | [-> _]]; by eauto. Qed.

Lemma handle_failed_sent_via t n err :
  sent_via (Retry._handle_failed_notification self t n err) = sent_via n.
Proof. unfold sent_via. by rewrite handle_failed_data. Qed.

Lemma handle_failed_not_sent t n err :
  Notification.status (Retry._handle_failed_notification self t n err) ≠ SENT.
Proof. rewrite handle_failed_status. by destruct (_ <? _). Qed.

(** The attempt leaves the error message and the channel as they were. *)
Lemma attempt_result_error_message env n r n1 cs :
  attempt_result self env n r n1 cs →
  Notification.error_message n1 = Notification.error_message n.
Proof.
  intros [(t & via & _ & Hc) | [(t & _ & Hc) | (-> & _)]];
    [| |reflexivity];
    apply committed_cases in Hc as [-> | ->];
    by rewrite ?refresh_error_message, ?mark_sent_error_message,
         ?handle_failed_error_message.
Qed.

Lemma attempt_result_notification_type env n r n1 cs :
  attempt_result self env n r n1 cs →
  Notification.notification_type n1 = Notification.notification_type n.
Proof.
  intros [(t & via & _ & Hc) | [(t & _ & Hc) | (-> & _)]];
    [| |reflexivity];
    apply committed_cases in Hc as [-> | ->];
    by rewrite ?refresh_notification_type, ?mark_sent_notification_type,
         ?handle_failed_notification_type.
Qed.

(** [_send_notification] after its [try] body: when the body raised, the
    failure handler runs with the error's text, then the commit. *)
Lemma send_from_attempt env w nid n n1 cs :
  session w !! nid = Some n →
  session (attempt self nid env w).2 = <[nid := n1]> (session w) →
  calls (attempt self nid env w).2 = calls w ++ cs →
  ∃ n',
    calls (_send_notification self nid env w).2 = calls w ++ cs ∧
    session (_send_notification self nid env w).2 = <[nid := n']> (session w) ∧
    match (attempt self nid env w).1 with
    | Returns _ => n' = n1
    | Raises e =>
        ∃ t, committed env
               (Retry._handle_failed_notification self t n1 (Some (exc_str e)))
               (_send_notification self nid env w).1 n'
    end.
Proof.
  intros Hn Hs Hc.
  assert (Hlt : (nid < length (session w))%nat) by (by eapply lookup_lt_Some).
  unfold _send_notification, try_except.
  destruct (attempt self nid env w) as [[u|e] w1]; cbn [fst snd] in *.
  - exists n1. done.
  - assert (Hpost : wp (handle_failed self nid (Some (exc_str e)) ;; commit nid)%run
              env w1 (fun r w' =>
                ∃ n', calls w' = calls w1 ∧
                      session w' = <[nid := n']> (session w) ∧
                      committed env
                        (Retry._handle_failed_notification self
                           (utcnow env (tick w1)) n1 (Some (exc_str e)))
                        r n')).
    { unfold handle_failed, commit. wp_run.
      all: rewrite ?alter_alter, Hs.
      all: erewrite alter_as_insert by (by apply list_lookup_insert_eq).
      all: rewrite list_insert_insert_eq.
      all: eexists; split; [reflexivity|]; split; [reflexivity|].
      all: unfold committed; by eauto 8. }
    unfold wp in Hpost. destruct Hpost as (n' & Hc' & Hs' & Hcm).
    exists n'. rewrite Hc', Hc. by eauto.
Qed.

(** [_send_notification]: what becomes of the notification, and the calls
    made. *)
Lemma send_spec env w nid n :
  session w !! nid = Some n →
  ∃ n1 cs n',
    attempt_result self env n (attempt self nid env w).1 n1 cs ∧
    calls (_send_notification self nid env w).2 = calls w ++ cs ∧
    session (_send_notification self nid env w).2 = <[nid := n']> (session w) ∧
    match (attempt self nid env w).1 with
    | Returns _ => n' = n1
    | Raises e =>
        ∃ t, committed env
               (Retry._handle_failed_notification self t n1 (Some (exc_str e)))
               (_send_notification self nid env w).1 n'
    end.
Proof.
  intros Hn. pose proof (attempt_spec env w nid n Hn) as Ha.
  unfold wp in Ha. destruct Ha as (n1 & cs & Hs & Hc & Hr).
  destruct (send_from_attempt env w nid n n1 cs Hn Hs Hc) as (n' & ? & ? & ?).
  by exists n1, cs, n'.
Qed.


End SendProperties.

Section SendClaims.
Import Py Run Service.
Implicit Types (self : NotificationService) (env : Env) (w : World)
  (n : Notification.t).




(** C8, as stated, fails: the email sender returns [false] for a
    notification that carries the error of an earlier failure; the attempt
    counts as a failure (RETRYING, one more retry) and the error message
    is still the old one.  On a fresh notification the field stays
    empty. *)
Lemma error_message_not_overwritten :
  let w := world_with retrying_notification ∅ in
  let w' := (_send_notification notification_service 0 failing_senders w).2 in
  (attempt notification_service 0 failing_senders w).1 = Returns tt ∧
  calls w' = [EmailCall (Some "test@example.com") (Some "Test") "Test body"] ∧
  Notification.status <$> session w' !! 0%nat = Some RETRYING ∧
  Notification.retry_count <$> session w' !! 0%nat = Some 2 ∧
  Notification.error_message <$> session w' !! 0%nat
  = Some (Some "Connection timeout") ∧
  Notification.error_message <$>
    session (_send_notification notification_service 0 failing_senders
               (world_with pending_notification ∅)).2 !! 0%nat
  = Some None.
Proof. vm_compute. repeat split. Qed.

(** C8, amended: after a send attempt the error message is the text of
    the error the attempt threw, when it threw one with a non-empty text;
    when the sender returned its result (successful or not) or the error's
    text is empty, the error message is left as it was. *)
Theorem error_message_after_send self env w nid n :
  session w !! nid = Some n →
  ∃ n', session (_send_notification self nid env w).2 !! nid = Some n' ∧
    Notification.error_message n' =
      match (attempt self nid env w).1 with
      | Raises e =>
          if truthy_str (Some (exc_str e)) then Some (exc_str e)
          else Notification.error_message n
      | Returns _ => Notification.error_message n
      end.
Proof.
  intros Hn.
  destruct (send_spec self env w nid n Hn) as (n1 & cs & n' & Hr & _ & Hs & Hn').
  exists n'. split.
  - rewrite Hs. apply list_lookup_insert_eq. by eapply lookup_lt_Some.
  - apply attempt_result_error_message in Hr.
    destruct ((attempt self nid env w).1) as [u|e].
    + by subst n'.
    + destruct Hn' as [t Hc].
      apply committed_cases in Hc as [-> | ->];
        rewrite ?refresh_error_message, handle_failed_error_message;
        by destruct (truthy_str _).
Qed.

Lemma error_message_after_send_witness :
  ∃ n', session (_send_notification notification_service 0 failing_senders
                   (world_with retrying_notification ∅)).2 !! 0%nat = Some n' ∧
    Notification.error_message n' = Some "Connection timeout".
Proof.
  exact (error_message_after_send notification_service failing_senders
           (world_with retrying_notification ∅) 0 retrying_notification eq_refl).
Defined.

(** C9 does not hold of the code: the success branch sets the
    ['sent_via'] entry inside the dict that [data] holds, and assigns the
    attribute only when the payload is null or empty; [data] is a plain
    JSON column, so for a payload that has items the entry is not written
    to the row, and after the commit the notification carries no
    provenance.  Here a push notification with the payload of a
    reservation event goes to a connected user whose connection takes it:
    one call, to the realtime registry, none to the push sender; the
    commit returns; the notification is SENT, and its payload is what it
    was, without ['sent_via'].  The same run with an empty payload keeps
    the tag. *)
Lemma provenance_lost_at_commit :
  let m : gmap string (gset WebSocket) := {[ "user-1" := {[ 7%nat ]} ]} in
  let w := world_with push_notification_with_payload m in
  let w' := (_send_notification notification_service 0 open_sockets w).2 in
  (_send_notification notification_service 0 open_sockets w).1 = Returns tt ∧
  calls w' = [RealtimeCall "user-1"
                (ws_notification_of push_notification_with_payload)] ∧
  Notification.status <$> session w' !! 0%nat = Some SENT ∧
  Notification.data <$> session w' !! 0%nat
  = Some (Some [("parking_name", VStr "Lot1")]) ∧
  (session w' !! 0%nat) ≫= sent_via = None ∧
  (session (_send_notification notification_service 0 open_sockets
              (world_with push_notification m)).2 !! 0%nat) ≫= sent_via
  = Some (VStr "websocket").
Proof. vm_compute. repeat split. Qed.

End SendClaims.

(* ===================================================================== *)
(** * Properties: processing one event *)
(* ===================================================================== *)

Section LoopRule.
Import Run Service.
Context {A S : Type}.

(** A loop keeps an invariant [I] of its accumulator and the world when
    every round does; [E] is what holds of the world when a round
    raises. *)
Lemma wp_for_each (I : S → World → Prop) (E : World → Prop)
    (xs : list A) (body : S → A → M S) env :
  (∀ acc x w, x ∈ xs → I acc w →
     wp (body acc x) env w (fun r w' =>
       match r with Returns acc' => I acc' w' | Raises _ => E w' end)) →
  ∀ acc w, I acc w →
    wp (for_each xs acc body) env w (fun r w' =>
      match r with Returns acc' => I acc' w' | Raises _ => E w' end).
Proof.
  induction xs as [|x xs IH]; intros Hbody acc w HI; cbn [for_each].
  - by apply wp_ret.
  - apply wp_bind.
    eapply wp_mono; [|apply (Hbody acc x w); [apply list_elem_of_here | exact HI]].
    intros [acc'|e] w' H; [|exact H].
    apply IH; [|exact H].
    intros acc0 x0 w0 Hin. apply Hbody. by apply list_elem_of_further.
Qed.

End LoopRule.

Section EventProperties.
Import Py Run Service Rendering.
Implicit Types (self : NotificationService) (env : Env) (w : World)
  (n : Notification.t).

Lemma no_email_since_refl w : no_email_since w w.
Proof.
  split; [lia|]. split; [intros i n Hi Hle; apply lookup_lt_Some in Hi; lia|].
  exists []. by rewrite app_nil_r.
Qed.

(** Storage calls leave the session and the calls as they are. *)
Lemma wp_db_call_frame env w (P : World → Prop) :
  (∀ w', session w' = session w → calls w' = calls w → P w') →
  wp db_call env w (fun _ w' => P w').
Proof.
  intros H. apply wp_db_call. intros w' Hs _ Hc _.
  destruct (storage_fault env _); by apply H.
Qed.

Lemma no_email_since_frame w0 w w' :
  session w' = session w → calls w' = calls w →
  no_email_since w0 w → no_email_since w0 w'.
Proof. unfold no_email_since. intros -> ->. done. Qed.

(** [_create_notification] adds at most one notification, of the channel
    it is given, and makes no call. *)
Lemma create_spec user_id ty event_type body data priority
    recipient_email recipient_fcm_token subject title env w :
  wp (_create_notification user_id ty event_type body data priority
        recipient_email recipient_fcm_token subject title) env w
    (fun r w' =>
       calls w' = calls w ∧
       ∃ n, Notification.notification_type n = ty ∧
         match r with
         | Returns nid => nid = length (session w) ∧ session w' = session w ++ [n]
         | Raises _ => session w' = session w ∨ session w' = session w ++ [n]
         end).
Proof.
  unfold _create_notification.
  set (dummy := Notification.mk 0 user_id ty PENDING priority recipient_email
                  recipient_fcm_token subject title body (Some data)
                  event_type 0 3 None None 0 None (Some data) false).
  apply wp_bind, wp_db_call. intros w1 Hs1 _ Hc1 _.
  destruct (storage_fault env _).
  { split; [exact Hc1|]. exists dummy. split; [reflexivity|]. left. exact Hs1. }
  apply wp_bind, wp_db_call. intros w2 Hs2 _ Hc2 _.
  destruct (storage_fault env _).
  { split; [congruence|]. exists dummy. split; [reflexivity|]. left. congruence. }
  repeat wp_step.
  apply wp_db_call. intros w3 Hs3 _ Hc3 _. cbn [session calls] in *.
  rewrite Hs2, Hs1 in Hs3. rewrite Hc2, Hc1 in Hc3.
  destruct (storage_fault env _).
  - split; [exact Hc3|]. eexists. split; [|right; exact Hs3]. reflexivity.
  - wp_step. split; [exact Hc3|]. eexists. split; [|split; [|exact Hs3]].
    + reflexivity.
    + by rewrite Hs2, Hs1.
Qed.

Lemma no_email_since_add w0 w w' n :
  session w' = session w ++ [n] → calls w' = calls w →
  Notification.notification_type n = PUSH →
  no_email_since w0 w → no_email_since w0 w'.
Proof.
  intros Hs Hc Hty (Hlen & Hnew & Hcalls).
  unfold no_email_since. rewrite Hs, Hc, length_app. cbn [length].
  split; [lia|]. split; [|exact Hcalls].
  intros i m Hi Hle.
  destruct (decide (i < length (session w))%nat) as [Hlt|Hge].
  - rewrite lookup_app_l in Hi by exact Hlt. by eapply Hnew.
  - rewrite lookup_app_r in Hi by lia.
    destruct (i - length (session w))%nat; [|discriminate].
    by injection Hi as <-.
Qed.

(** The calls of an attempt for a push notification do not reach the
    email sender. *)
Lemma attempt_result_push_calls self env n r n1 cs :
  attempt_result self env n r n1 cs →
  Notification.notification_type n = PUSH →
  Forall (fun c => is_email_call c = false) cs.
Proof.
  unfold attempt_result, delivered_by, calls_of_attempt. intros H Hty.
  rewrite Hty in H.
  destruct H as [(t & [|] & H & _) | [(t & H & _) | (_ & _ & H)]].
  - subst cs. by repeat constructor.
  - destruct H as [-> | ->]; by repeat constructor.
  - destruct H as [-> | [-> | [-> | ->]]]; by repeat constructor.
  - destruct H as [-> | [-> | [-> | ->]]]; by repeat constructor.
Qed.

(** Sending a notification created since [w0] reaches no email sender
    and creates nothing. *)
Lemma send_no_email self env w0 w nid :
  no_email_since w0 w →
  (length (session w0) ≤ nid < length (session w))%nat →
  no_email_since w0 (_send_notification self nid env w).2 ∧
  length (session (_send_notification self nid env w).2) = length (session w).
Proof.
  intros (Hlen & Hnew & cs0 & Hcalls & Hcs0) [Hlo Hhi].
  destruct (lookup_lt_is_Some_2 _ _ Hhi) as [n Hn].
  assert (Hty : Notification.notification_type n = PUSH) by (by eapply Hnew).
  destruct (send_spec self env w nid n Hn) as (n1 & cs & n' & Hr & Hc & Hs & Hn').
  assert (Hty' : Notification.notification_type n' = PUSH).
  { pose proof (attempt_result_notification_type _ _ _ _ _ _ Hr) as Hty1.
    destruct ((attempt self nid env w).1) as [u|e].
    - subst n'. congruence.
    - destruct Hn' as [t Hcm].
      apply committed_cases in Hcm as [-> | ->];
        rewrite ?refresh_notification_type, handle_failed_notification_type;
        congruence. }
  unfold no_email_since. rewrite Hs, Hc, length_insert.
  split; [|reflexivity]. split; [exact Hlen|]. split.
  - intros i m Hi Hle. rewrite list_lookup_insert in Hi.
    case_decide as Hcase.
    + destruct Hcase as [-> _]. by injection Hi as <-.
    + by eapply Hnew.
  - exists (cs0 ++ cs). rewrite Hcalls, app_assoc. split; [reflexivity|].
    apply Forall_app. split; [exact Hcs0|].
    by eapply attempt_result_push_calls.
Qed.

(** One round of the loop over the templates, for an event without an
    address: no email notification is created, and the list holds
    notifications created since [w0]. *)
Lemma process_template_no_email event preferences acc template env w0 w :
  truthy_str (NotificationEvent.user_email event) = false →
  no_email_since w0 w →
  Forall (fun nid => (length (session w0) ≤ nid < length (session w))%nat) acc →
  wp (process_template event preferences acc template) env w (fun r w' =>
    match r with
    | Returns acc' =>
        no_email_since w0 w' ∧
        Forall (fun nid => (length (session w0) ≤ nid < length (session w'))%nat) acc'
    | Raises _ => no_email_since w0 w'
    end).
Proof.
  intros Hemail Hinv Hacc. unfold process_template.
  destruct (negb _); [by apply wp_ret|].
  destruct (NotificationTemplate.notification_type template).
  - rewrite Hemail. by apply wp_ret.
  - destruct (truthy_str (or_else _ _)); [|by apply wp_ret].
    apply wp_bind. unfold rendered_item.
    destruct (r_title _); [apply wp_ret | by apply wp_raise].
    apply wp_bind. eapply wp_mono; [|apply create_spec].
    intros r w' (Hc & n & Hty & Hr). destruct r as [nid|e].
    + destruct Hr as [-> Hs]. apply wp_ret.
      split; [by eapply no_email_since_add|].
      rewrite Hs, length_app. cbn [length].
      apply Forall_app. split.
      * eapply Forall_impl; [exact Hacc|]. cbn. intros; lia.
      * constructor; [|constructor]. destruct Hinv as [Hlen _]. lia.
    + destruct Hr as [Hs | Hs].
      * by eapply no_email_since_frame.
      * by eapply no_email_since_add.
Qed.

Lemma process_event_body_no_email self event env w0 w :
  truthy_str (NotificationEvent.user_email event) = false →
  no_email_since w0 w →
  wp (process_event_body self event) env w (fun _ w' => no_email_since w0 w').
Proof.
  intros Hemail Hinv. unfold process_event_body.
  apply wp_bind. unfold _get_user_preferences.
  apply wp_bind, wp_ask. cbv beta iota.
  apply wp_bind, wp_db_call. intros w1 Hs1 _ Hc1 _.
  pose proof (no_email_since_frame w0 w w1 Hs1 Hc1 Hinv) as Hinv1.
  destruct (storage_fault env _); [exact Hinv1|].
  apply wp_ret.
  apply wp_bind. unfold _get_templates.
  apply wp_bind, wp_ask. cbv beta iota.
  apply wp_bind, wp_db_call. intros w2 Hs2 _ Hc2 _.
  pose proof (no_email_since_frame w0 w1 w2 Hs2 Hc2 Hinv1) as Hinv2.
  destruct (storage_fault env _); [exact Hinv2|].
  apply wp_ret.
  apply wp_bind.
  eapply wp_mono;
    [|apply (wp_for_each
               (fun acc w' =>
                  no_email_since w0 w' ∧
                  Forall (fun nid => (length (session w0) ≤ nid
                                      < length (session w'))%nat) acc)
               (fun w' => no_email_since w0 w'))].
  - intros [nids|e] w3 H; [|exact H]. destruct H as [Hinv3 Hnids].
    eapply wp_mono;
      [|apply (wp_for_each
                 (fun _ w' => no_email_since w0 w' ∧
                              length (session w') = length (session w3))
                 (fun w' => no_email_since w0 w'))].
    + intros [u|e] w4 H; [by destruct H | exact H].
    + intros [] nid w4 Hin [Hinv4 Hlen4].
      rewrite Forall_forall in Hnids. specialize (Hnids nid Hin).
      destruct (send_no_email self env w0 w4 nid Hinv4) as [Hinv5 Hlen5]; [lia|].
      unfold wp. destruct ((_send_notification self nid env w4).1).
      * split; [exact Hinv5 | congruence].
      * exact Hinv5.
    + by split.
  - intros acc template w3 _ [Hinv3 Hacc].
    by apply process_template_no_email.
  - by split.
Qed.

(** Processing an event without an address creates no email notification
    and reaches no email sender. *)
Lemma process_event_no_email self event env w :
  truthy_str (NotificationEvent.user_email event) = false →
  wp (process_event self event) env w (fun _ w' => no_email_since w w').
Proof.
  intros Hemail. unfold process_event.
  apply wp_bind, wp_db_call. intros w1 Hs1 _ Hc1 _.
  pose proof (no_email_since_frame w w w1 Hs1 Hc1 (no_email_since_refl w)) as Hinv1.
  destruct (storage_fault env _); [exact Hinv1|].
  apply wp_try_finally, wp_try_except.
  eapply wp_mono; [|by apply (process_event_body_no_email self event env w w1)].
  intros r w2 Hinv2.
  assert (Hclose : wp db_call env w2 (fun rf w3 =>
            match rf with
            | Returns _ => no_email_since w w3
            | Raises _ => no_email_since w w3
            end)).
  { apply wp_db_call. intros w3 Hs3 _ Hc3 _.
    destruct (storage_fault env _); by eapply no_email_since_frame. }
  destruct r as [u|e]; [exact Hclose|].
  apply wp_ret. exact Hclose.
Qed.

(** C7: for an event without a user email, an email template is skipped
    without an error (the round of the loop returns, with the list of
    notifications to send and the world as they were), and processing the
    event adds no email notification to the session and makes no call to
    the email sender. *)
Theorem no_email_without_address self event env w :
  truthy_str (NotificationEvent.user_email event) = false →
  (∀ preferences notifications_to_send template,
     NotificationTemplate.notification_type template = EMAIL →
     process_template event preferences notifications_to_send template env w
     = (Returns notifications_to_send, w)) ∧
  (∀ i n, session (process_event self event env w).2 !! i = Some n →
          (length (session w) ≤ i)%nat →
          Notification.notification_type n ≠ EMAIL) ∧
  ∃ cs, calls (process_event self event env w).2 = calls w ++ cs ∧
        Forall (fun c => is_email_call c = false) cs.
Proof.
  intros Hemail. split.
  - intros preferences acc template Hty. unfold process_template.
    rewrite Hty, Hemail. by destruct (negb _).
  - pose proof (process_event_no_email self event env w Hemail) as H.
    unfold wp in H. destruct H as (_ & Hnew & Hcalls).
    split; [|exact Hcalls].
    intros i n Hi Hle. by rewrite (Hnew i n Hi Hle).
Qed.

Lemma no_email_without_address_witness :
  ∃ cs,
    calls (process_event notification_service event_without_email
             (env_with_templates [email_template_example; push_template_example])
             empty_world).2
    = [] ++ cs ∧
    Forall (fun c => is_email_call c = false) cs.
Proof.
  apply (no_email_without_address notification_service event_without_email
           (env_with_templates [email_template_example; push_template_example])
           empty_world).
  reflexivity.
Defined.

(** The same run, computed: one notification, for the push channel, and
    one call, to the realtime registry or the push sender. *)
Lemma event_without_email_example :
  let w' := (process_event notification_service event_without_email
               (env_with_templates [email_template_example; push_template_example])
               empty_world).2 in
  Notification.notification_type <$> session w' = [PUSH] ∧
  Notification.status <$> session w' = [SENT] ∧
  is_email_call <$> calls w' = [false].
Proof. vm_compute. repeat split. Qed.

End EventProperties.

(* ===================================================================== *)
(** * Properties: the queue consumer *)
(* ===================================================================== *)

Section ConsumerProperties.
Import Py Run Service Consumer.
Implicit Types (self : NotificationService) (env : Env) (w : World).

(** [process_event] raises only when opening or closing the storage
    session raises; what happens in between does not show. *)
Lemma process_event_result self event env w :
  (process_event self event env w).1
  = match storage_fault env (tick w) with
    | Some msg => Raises (Exception OtherError msg)
    | None =>
        match storage_fault env
                (tick (process_event_body self event env (db_call env w).2).2) with
        | Some msg => Raises (Exception OtherError msg)
        | None => Returns tt
        end
    end.
Proof.
  unfold process_event, bind. rewrite db_call_eq. cbn [fst snd].
  destruct (storage_fault env (tick w)); [reflexivity|].
  unfold try_finally, try_except.
  destruct (process_event_body self event env _) as [[u|e] w2]; cbn [fst snd].
  - rewrite db_call_eq. by destruct (storage_fault env (tick w2)); destruct u.
  - unfold ret. rewrite db_call_eq. by destruct (storage_fault env (tick w2)).
Qed.

Lemma consumer_decoded lib self routing_key body event env w :
  decode lib routing_key body = Returns event →
  (process_notification_event lib self routing_key body env w).1
  = Returns match (process_event self event env w).1 with
            | Returns _ => BasicAck
            | Raises e => answer_to e
            end.
Proof.
  unfold decode, process_notification_event, try_except, bind, lift, ret, raise.
  intros Hd.
  destruct (json_loads lib body) as [message|]; [|discriminate].
  destruct (transform_auth_event lib message _ routing_key) as [t|e]; [|discriminate].
  rewrite Hd.
  destruct (process_event self event env w) as [[u|e] w']; cbn [fst]; [reflexivity|].
  unfold answer_to. by destruct (exc_class e).
Qed.

Lemma consumer_not_decoded lib self routing_key body e env w :
  decode lib routing_key body = Raises e →
  (process_notification_event lib self routing_key body env w).1
  = Returns (answer_to e).
Proof.
  unfold decode, process_notification_event, try_except, bind, lift, ret, raise,
    answer_to.
  intros Hd.
  destruct (json_loads lib body) as [message|].
  - destruct (transform_auth_event lib message _ routing_key) as [t|e'].
    + rewrite Hd. by destruct (exc_class e).
    + injection Hd as ->. by destruct (exc_class e).
  - injection Hd as <-. reflexivity.
Qed.

(** C2, as stated, fails: the event is decoded and validated, the email
    template found for it has no subject text, the Orchestrator's [try]
    body raises [KeyError] at [rendered['subject']], and the consumer
    acks the message instead of nacking it. *)
Lemma orchestrator_error_is_acked :
  let env := env_with_templates [email_template_without_subject] in
  decode library_example "reservation.confirmed" "<message>"
  = Returns reservation_event ∧
  (process_event_body notification_service reservation_event env
     (db_call env empty_world).2).1
  = Raises (Exception KeyError "'subject'") ∧
  (process_notification_event library_example notification_service
     "reservation.confirmed" "<message>" env empty_world).1
  = Returns BasicAck.
Proof. vm_compute. repeat split. Qed.

(** C2, amended: a schema-validation failure is rejected without
    requeue; any other exception raised while the message is parsed,
    translated or turned into an event, or raised by opening or closing
    the storage session, is nacked with requeue and the message is not
    acked; once the session is open, whatever the Orchestrator's [try]
    body does or raises is caught and logged there, and the message is
    acked. *)
Theorem consumer_outcome lib self routing_key body env w :
  (process_notification_event lib self routing_key body env w).1
  = Returns
      match decode lib routing_key body with
      | Raises e =>
          match exc_class e with
          | ValidationError => BasicReject false
          | _ => BasicNack true
          end
      | Returns event =>
          match storage_fault env (tick w),
                storage_fault env
                  (tick (process_event_body self event env (db_call env w).2).2)
          with
          | None, None => BasicAck
          | _, _ => BasicNack true
          end
      end.
Proof.
  destruct (decode lib routing_key body) as [event|e] eqn:Hd.
  - rewrite (consumer_decoded lib self routing_key body event env w Hd).
    rewrite process_event_result.
    destruct (storage_fault env (tick w)); [reflexivity|].
    by destruct (storage_fault env _).
  - by rewrite (consumer_not_decoded lib self routing_key body e env w Hd).
Qed.

End ConsumerProperties.

(* ===================================================================== *)
(** * Further properties: the connection registry *)
(* ===================================================================== *)

Section RegistryExact.
Import ConnectionManager ConnectionCounts.
Implicit Types (m : gmap string (gset WebSocket)) (conns : gset WebSocket).

(** The send loop sorts the connections it visits. *)
Lemma send_loop_fold send_json (l : list WebSocket) disconnected count x :
  x ∈ (fold_left (send_step send_json) l (disconnected, count)).1
  ↔ x ∈ disconnected ∨ (x ∈ l ∧ send_json x = false).
Proof.
  revert disconnected count.
  induction l as [|y l IH]; intros disconnected count; cbn [fold_left send_step].
  - cbn [fst]. split; [by left|]. intros [H|[H _]]; [exact H|].
    by apply elem_of_nil in H.
  - destruct (send_json y) eqn:Hy; rewrite IH.
    + split; intros [H|[H Hx]]; [by left| |by left|].
      * right. split; [by apply list_elem_of_further | exact Hx].
      * apply elem_of_cons in H as [->|H]; [congruence|]. by right.
    + rewrite elem_of_union, elem_of_singleton.
      split.
      * intros [[->|H]|[H Hx]]; [|by left|].
        -- right. split; [apply list_elem_of_here | exact Hy].
        -- right. split; [by apply list_elem_of_further | exact Hx].
      * intros [H|[H Hx]]; [by left; right|].
        apply elem_of_cons in H as [->|H]; [by left; left | by right].
Qed.

Lemma send_loop_count send_json (l : list WebSocket) disconnected count :
  (fold_left (send_step send_json) l (disconnected, count)).2
  = (count + length (List.filter send_json l))%nat.
Proof.
  revert disconnected count.
  induction l as [|y l IH]; intros disconnected count;
    cbn [fold_left send_step List.filter].
  - cbn. lia.
  - destruct (send_json y); rewrite IH; cbn [length]; lia.
Qed.

(** The connections left after the loop are the accepting ones. *)
Lemma send_loop_kept send_json conns :
  conns ∖ (send_loop send_json conns).1 = accepting send_json conns.
Proof.
  apply set_eq. intros x. unfold send_loop, accepting.
  rewrite elem_of_difference, send_loop_fold, elem_of_filter, elem_of_elements.
  split.
  - intros [Hin Hnot]. split; [|exact Hin].
    destruct (send_json x) eqn:Hx; [reflexivity|].
    exfalso. apply Hnot. by right.
  - intros [Hx Hin]. split; [exact Hin|].
    intros [H|[_ H]]; [by apply not_elem_of_empty in H | congruence].
Qed.

(** The loop counts a send exactly when some connection accepts. *)
Lemma send_loop_sent send_json conns :
  bool_decide (0 < (send_loop send_json conns).2)%nat
  = bool_decide (accepting send_json conns ≠ ∅).
Proof.
  apply bool_decide_ext. unfold send_loop. rewrite send_loop_count.
  cbn [Nat.add]. split.
  - intros Hlen Hempty.
    destruct (List.filter send_json (elements conns)) as [|x l] eqn:Hf;
      [cbn in Hlen; lia|].
    assert (Hx : In x (List.filter send_json (elements conns)))
      by (rewrite Hf; by left).
    apply filter_In in Hx as [Hin Hx].
    apply list_elem_of_In, elem_of_elements in Hin.
    assert (x ∈ accepting send_json conns) by (by apply elem_of_filter).
    rewrite Hempty in H. by apply not_elem_of_empty in H.
  - intros Hne.
    destruct (set_choose_L _ Hne) as [x Hx].
    apply elem_of_filter in Hx as [Hx Hin].
    assert (Hin' : In x (List.filter send_json (elements conns))).
    { apply filter_In. split; [|exact Hx].
      by apply list_elem_of_In, elem_of_elements. }
    destruct (List.filter send_json (elements conns)); [destruct Hin'|].
    cbn [length]. lia.
Qed.

Lemma store_lookup m user_id conns other :
  (if decide (conns = ∅) then delete user_id m else <[user_id := conns]> m)
    !! other
  = if decide (other = user_id) then kept conns else m !! other.
Proof.
  unfold kept. destruct (decide (conns = ∅)) as [He|He].
  - rewrite lookup_delete. destruct (decide (user_id = other)) as [->|Hne].
    + by rewrite decide_True.
    + by rewrite decide_False by congruence.
  - rewrite lookup_insert. destruct (decide (user_id = other)) as [->|Hne].
    + by rewrite decide_True.
    + by rewrite decide_False by congruence.
Qed.

(** [send_notification] answers [true] exactly when one of the user's
    connections takes the message; afterwards the user keeps exactly the
    connections that took it (and is no key of the map when none did), and
    no other user's entry has changed. *)
Theorem send_notification_exact send_json user_id m conns :
  m !! user_id = Some conns →
  (send_notification send_json user_id m).1
  = bool_decide (accepting send_json conns ≠ ∅) ∧
  (send_notification send_json user_id m).2 !! user_id
  = kept (accepting send_json conns) ∧
  ∀ other, other ≠ user_id →
    (send_notification send_json user_id m).2 !! other = m !! other.
Proof.
  intros Hu. unfold send_notification. rewrite Hu.
  pose proof (send_loop_kept send_json conns) as Hk.
  pose proof (send_loop_sent send_json conns) as Hs.
  destruct (send_loop send_json conns) as [disconnected sent_count].
  cbn [fst snd] in *. rewrite Hk. split; [exact Hs|]. split.
  - rewrite store_lookup. by rewrite decide_True.
  - intros other Hne. rewrite store_lookup. by rewrite decide_False.
Qed.

Lemma send_notification_exact_witness :
  (send_notification (fun ws => Nat.eqb ws 5) "u" registry_example).1 = true ∧
  elements <$> (send_notification (fun ws => Nat.eqb ws 5) "u" registry_example).2
                 !! "u" = Some [5%nat].
Proof.
  destruct (send_notification_exact (fun ws => Nat.eqb ws 5) "u" registry_example
              {[ 5%nat; 7%nat ]} ltac:(by vm_compute)) as (H1 & H2 & _).
  split; [rewrite H1 | rewrite H2]; by vm_compute.
Defined.

(** For a user who is no key of the map, [send_notification] answers
    [false] and [disconnect] does nothing; neither changes the registry. *)
Theorem unknown_user_untouched send_json websocket user_id m :
  m !! user_id = None →
  send_notification send_json user_id m = (false, m) ∧
  disconnect websocket user_id m = m ∧
  is_user_connected user_id m = false.
Proof.
  intros Hu. unfold send_notification, disconnect, is_user_connected.
  by rewrite Hu.
Qed.

Lemma unknown_user_untouched_witness :
  send_notification (fun _ => true) "w" registry_example = (false, registry_example).
Proof.
  apply (unknown_user_untouched (fun _ => true) 1%nat "w" registry_example).
  by vm_compute.
Defined.

(** [broadcast] leaves every user exactly the connections that took the
    message, and deletes the users left with none. *)
Theorem broadcast_exact send_json m user_id :
  broadcast send_json m !! user_id
  = m !! user_id ≫= (fun conns => kept (accepting send_json conns)).
Proof.
  unfold broadcast. rewrite lookup_delete_all, lookup_fmap.
  destruct (m !! user_id) as [conns|] eqn:Hu; cbn [fmap option_fmap option_map mbind option_bind].
  - rewrite send_loop_kept. unfold kept.
    destruct (decide (accepting send_json conns = ∅)) as [He|He].
    + apply decide_True.
      apply list_elem_of_fmap. exists (user_id, ∅). split; [reflexivity|].
      apply elem_of_map_to_list, map_lookup_filter_Some. split; [|reflexivity].
      by rewrite lookup_fmap, Hu; cbn; rewrite send_loop_kept, He.
    + apply decide_False. intros Hin.
      apply list_elem_of_fmap in Hin as ([u c] & -> & Hin).
      apply elem_of_map_to_list, map_lookup_filter_Some in Hin as [Hin Hc].
      cbn [fst snd] in *. rewrite lookup_fmap, Hu in Hin. cbn in Hin.
      rewrite send_loop_kept in Hin. congruence.
  - by case_decide.
Qed.

Lemma disconnect_lookup websocket user_id m other :
  disconnect websocket user_id m !! other
  = if decide (other = user_id)
    then m !! user_id ≫= (fun conns => kept (conns ∖ {[websocket]}))
    else m !! other.
Proof.
  unfold disconnect. destruct (m !! user_id) as [conns|] eqn:Hu.
  - rewrite store_lookup. by case_decide.
  - case_decide as Ho; [by subst | reflexivity].
Qed.

Lemma connect_as_insert websocket user_id m :
  connect true websocket user_id m
  = <[user_id := {[websocket]} ∪ default ∅ (m !! user_id)]> m.
Proof.
  unfold connect. destruct (m !! user_id) as [conns|] eqn:Hu.
  - by rewrite Hu.
  - rewrite lookup_insert_eq, insert_insert_eq. reflexivity.
Qed.

(** After [disconnect] the websocket is in no set of the user, a second
    [disconnect] of it changes nothing, and no other user's entry has
    changed. *)
Theorem disconnect_removes websocket user_id m :
  (∀ conns, disconnect websocket user_id m !! user_id = Some conns →
            websocket ∉ conns) ∧
  disconnect websocket user_id (disconnect websocket user_id m)
  = disconnect websocket user_id m ∧
  ∀ other, other ≠ user_id →
    disconnect websocket user_id m !! other = m !! other.
Proof.
  assert (Hgone : ∀ conns, disconnect websocket user_id m !! user_id = Some conns →
                           (websocket ∉ conns) ∧ (conns ≠ ∅)).
  { intros conns. rewrite disconnect_lookup, decide_True by reflexivity.
    destruct (m !! user_id) as [c|]; cbn [mbind option_bind]; [|discriminate].
    unfold kept. case_decide as He; [discriminate|]. intros [= <-].
    split; [|exact He]. rewrite elem_of_difference, elem_of_singleton. tauto. }
  split; [intros conns Hc; by apply Hgone|]. split.
  - apply map_eq. intros other. rewrite (disconnect_lookup _ _ (disconnect _ _ _)).
    case_decide as Ho; [subst other|reflexivity].
    destruct (disconnect websocket user_id m !! user_id) as [conns|] eqn:Hd;
      cbn [mbind option_bind]; [|reflexivity].
    destruct (Hgone conns eq_refl) as [Hnot Hne].
    assert (Heq : conns ∖ {[websocket]} = conns).
    { apply set_eq. intros x. rewrite elem_of_difference, elem_of_singleton.
      split; [tauto | intros Hx; split; [exact Hx | congruence]]. }
    rewrite Heq. unfold kept. by rewrite decide_False.
  - intros other Hne. rewrite disconnect_lookup. by rewrite decide_False.
Qed.

(** After an accepted [connect] the websocket is one of the user's
    connections and the user is connected; no other user's entry
    changes. *)
Theorem connect_registers websocket user_id m :
  connect true websocket user_id m !! user_id
  = Some ({[websocket]} ∪ default ∅ (m !! user_id)) ∧
  is_user_connected user_id (connect true websocket user_id m) = true ∧
  ∀ other, other ≠ user_id →
    connect true websocket user_id m !! other = m !! other.
Proof.
  rewrite connect_as_insert. split; [apply lookup_insert_eq|]. split.
  - unfold is_user_connected. rewrite lookup_insert_eq.
    apply bool_decide_eq_true.
    destruct (decide (size ({[websocket]} ∪ default ∅ (m !! user_id)) = 0)%nat)
      as [Hz|Hz]; [|lia].
    apply size_empty_iff in Hz. set_solver.
  - intros other Hne. by rewrite lookup_insert_ne.
Qed.

(** Connecting a websocket the user does not have yet and disconnecting
    it again gives the registry back, when the registry holds no empty
    set. *)
Theorem connect_disconnect_round_trip websocket user_id m :
  registry_ok m →
  (∀ conns, m !! user_id = Some conns → websocket ∉ conns) →
  disconnect websocket user_id (connect true websocket user_id m) = m.
Proof.
  intros Hok Hfresh. apply map_eq. intros other.
  rewrite disconnect_lookup, connect_as_insert.
  case_decide as Hcase; [subst other | by rewrite lookup_insert_ne].
  rewrite lookup_insert_eq. cbn [mbind option_bind]. unfold kept.
  destruct (m !! user_id) as [conns|] eqn:Hm; cbn [default]; unfold id.
  - specialize (Hfresh conns eq_refl). specialize (Hok _ _ Hm).
    assert (Heq : ({[websocket]} ∪ conns) ∖ {[websocket]} = conns).
    { apply set_eq. intros x.
      rewrite elem_of_difference, elem_of_union, elem_of_singleton.
      split; [intros [[?|?] ?]; done | intros ?; split; [by right | congruence]]. }
    rewrite Heq. by rewrite decide_False.
  - rewrite decide_True; [reflexivity|].
    apply set_eq. intros x.
    rewrite elem_of_difference, elem_of_union, elem_of_singleton.
    split; [intros [[?|H0] ?]; [done | by apply not_elem_of_empty in H0] |].
    intros H0. by apply not_elem_of_empty in H0.
Qed.

Lemma connect_disconnect_round_trip_witness :
  disconnect 11%nat "u" (connect true 11%nat "u" registry_example)
  = registry_example.
Proof.
  apply (connect_disconnect_round_trip 11%nat "u" registry_example).
  - apply registry_example_ok.
  - intros conns Hc.
    assert (Hu : registry_example !! "u" = Some ({[ 5%nat; 7%nat ]} : gset WebSocket))
      by (by vm_compute).
    rewrite Hu in Hc. injection Hc as <-.
    intros Hin. apply elem_of_union in Hin as [Hin|Hin];
      apply elem_of_singleton in Hin; discriminate.
Defined.

(** Under the invariant every user counted has at least one connection
    counted: the number of connected users is at most the number of
    connections. *)
Theorem users_at_most_connections m :
  registry_ok m →
  (get_connected_users_count m ≤ get_total_connections_count m)%nat.
Proof.
  intros Hok. unfold get_connected_users_count, get_total_connections_count.
  rewrite <- length_map_to_list.
  assert (Hall : Forall (fun kv : string * gset WebSocket => 1 ≤ size kv.2)%nat
                   (map_to_list m)).
  { apply Forall_forall. intros [u conns] Hin.
    apply elem_of_map_to_list in Hin. specialize (Hok _ _ Hin). cbn [snd].
    destruct (decide (size conns = 0)%nat) as [Hz|Hz]; [|lia].
    apply size_empty_iff in Hz. by apply leibniz_equiv in Hz. }
  induction Hall as [|kv l Hkv _ IH]; cbn [length sum_list_with]; lia.
Qed.

Lemma users_at_most_connections_witness :
  (get_connected_users_count registry_example
   ≤ get_total_connections_count registry_example)%nat.
Proof. exact (users_at_most_connections registry_example registry_example_ok). Defined.

End RegistryExact.

(* ===================================================================== *)
(** * Retry State Machine: any number of failures *)
(* ===================================================================== *)

Section RetryRuns.
Import Retry.

Lemma failures_snoc self runs run n :
  failures self (runs ++ [run]) n
  = _handle_failed_notification self run.1 (failures self runs n) run.2.
Proof. unfold failures. by rewrite fold_left_app. Qed.

(** After any number of failures the counter has grown by that number,
    with no cap at [max_retries]; the limit is the notification's own
    [max_retries], which no run changes; and the status is RETRYING while
    the counter is below the limit and FAILED from then on. *)
Theorem failures_count self runs n :
  runs ≠ [] →
  Notification.retry_count (failures self runs n)
  = Notification.retry_count n + Z.of_nat (length runs) ∧
  Notification.max_retries (failures self runs n) = Notification.max_retries n ∧
  Notification.status (failures self runs n)
  = if Notification.retry_count n + Z.of_nat (length runs)
       <? Notification.max_retries n
    then RETRYING else FAILED.
Proof.
  assert (Hinv : ∀ l,
    Notification.retry_count (failures self l n)
    = Notification.retry_count n + Z.of_nat (length l) ∧
    Notification.max_retries (failures self l n) = Notification.max_retries n).
  { induction l as [|run l IH] using rev_ind.
    - cbn. split; [lia|reflexivity].
    - rewrite failures_snoc, handle_failed_retry_count, handle_failed_max_retries.
      destruct IH as [-> ->]. rewrite length_app. cbn [length]. split; [lia|reflexivity]. }
  intros Hne. destruct (Hinv runs) as [Hc Hm]. split; [exact Hc|]. split; [exact Hm|].
  destruct runs as [|run l _] using rev_ind; [done|].
  rewrite failures_snoc, handle_failed_status.
  destruct (Hinv l) as [-> ->]. rewrite length_app. cbn [length].
  replace (Notification.retry_count n + Z.of_nat (length l) + 1)
    with (Notification.retry_count n + Z.of_nat (length l + 1)) by lia.
  reflexivity.
Qed.

Lemma failures_count_witness :
  Notification.status
    (failures notification_service
       [(10, None); (20, Some "Connection timeout"); (30, None); (40, None)]
       pending_notification) = FAILED ∧
  Notification.retry_count
    (failures notification_service
       [(10, None); (20, Some "Connection timeout"); (30, None); (40, None)]
       pending_notification) = 4.
Proof.
  destruct (failures_count notification_service
              [(10, None); (20, Some "Connection timeout"); (30, None); (40, None)]
              pending_notification ltac:(discriminate)) as (Hc & _ & Hs).
  split; [rewrite Hs | rewrite Hc]; reflexivity.
Defined.

(** After any number of failures [error_message] holds the detail of the
    last failure that had a non-empty one; when none had, it is what it
    was before the first failure. *)
Theorem failures_error_message self runs n :
  Notification.error_message (failures self runs n)
  = default (Notification.error_message n)
      (last (List.filter Py.truthy_str runs.*2)).
Proof.
  induction runs as [|run l IH] using rev_ind; [reflexivity|].
  rewrite failures_snoc, handle_failed_error_message, IH.
  rewrite fmap_app, List.filter_app. cbn [fmap list_fmap List.filter].
  destruct (Py.truthy_str run.2) eqn:Ht.
  - by rewrite last_snoc.
  - by rewrite app_nil_r.
Qed.

End RetryRuns.

(* ===================================================================== *)
(** * Template Renderer: data that names no placeholder of the template *)
(* ===================================================================== *)

Section RendererAbsent.
Import Py Renderer Consumer.

Lemma replace_from_absent c old new (s : string) :
  contains (String c old) s = false →
  replace_from (String c old) new 0 s = s.
Proof.
  induction s as [|x s IH]; [reflexivity|].
  intros H. cbn [contains] in H. apply orb_false_elim in H as [Hp Hs].
  rewrite replace_from_miss by exact Hp. by rewrite IH.
Qed.

(** When the placeholder of no key of the data map occurs in the
    template, rendering returns the template as it is, whatever the
    values are. *)
Theorem render_without_occurrence template (data : dict value) :
  Forall (fun item => contains (placeholder item.1) template = false) data →
  _replace_placeholders template data = template.
Proof.
  unfold _replace_placeholders.
  induction 1 as [|[key v] data Hitem _ IH]; [reflexivity|].
  cbn [fold_left]. cbn [fst] in Hitem.
  rewrite placeholder_cons in *. unfold replace.
  rewrite replace_from_absent by exact Hitem. exact IH.
Qed.

Lemma render_without_occurrence_witness :
  _replace_placeholders "Hello {name}, see {link"
    [("user", VStr "{name}"); ("link", VInt 7)]
  = "Hello {name}, see {link".
Proof.
  apply render_without_occurrence.
  repeat constructor.
Defined.

End RendererAbsent.

(* ===================================================================== *)
(** * One send attempt: what it touches, what it leaves *)
(* ===================================================================== *)

Ltac target_lookup :=
  match goal with
  | H : session ?w !! ?nid = Some _ |- _ =>
      rewrite ?list_lookup_alter_eq, H; cbn [fmap option_fmap option_map]
  end.

Ltac send_run :=
  unfold Service._send_notification, Service.attempt, Service.notification_of,
    Service.email_send, Service.push_send, Service.manager_send_notification,
    Service.handle_failed, Service.set_manager, Service.commit;
  apply wp_try_except; wp_run.

Section SendExtras.
Import Py Run Service.
Implicit Types (env : Env) (w : World) (n : Notification.t).

Lemma send_manager self nid env w :
  manager (_send_notification self nid env w).2 = registry_after_send env w nid.
Proof.
  change (wp (_send_notification self nid) env w
            (fun _ w' => manager w' = registry_after_send env w nid)).
  unfold registry_after_send. send_run.
  all: reflexivity.
Qed.

Lemma content_mark_sent t via n : content (mark_sent t via n) = content n.
Proof. unfold mark_sent. by destruct (truthy_items _). Qed.

Lemma content_refresh n : content (Notification.refresh n) = content n.
Proof. reflexivity. Qed.

Lemma content_handle_failed self t n err :
  content (Retry._handle_failed_notification self t n err) = content n.
Proof. unfold content. handler_cases. Qed.

Lemma handle_failed_sent_at self t n err :
  Notification.sent_at (Retry._handle_failed_notification self t n err)
  = Notification.sent_at n.
Proof. handler_cases. Qed.

(** A send attempt changes no notification but the one it sends: the
    session keeps its length and every other notification is as it was.
    This holds for every behaviour of the senders and of the storage
    layer, and also when the session holds no such notification. *)
Theorem send_touches_only_target self nid env w :
  length (session (_send_notification self nid env w).2) = length (session w) ∧
  ∀ j, j ≠ nid →
    session (_send_notification self nid env w).2 !! j = session w !! j.
Proof.
  change (wp (_send_notification self nid) env w
            (fun _ w' =>
               length (session w') = length (session w) ∧
               ∀ j, j ≠ nid → session w' !! j = session w !! j)).
  send_run.
  all: rewrite ?length_alter; split; [reflexivity|];
    intros j Hj; by rewrite ?list_lookup_alter_ne by done.
Qed.

(** [_send_notification] lets no error of a sender or of the registry
    out: it returns, or it raises the error of the storage layer that its
    own commit met. *)
Theorem send_raises_only_storage_errors self nid env w :
  (_send_notification self nid env w).1 = Returns tt
  ∨ ∃ k msg, storage_fault env k = Some msg ∧
      (_send_notification self nid env w).1
      = Raises (Exception OtherError msg).
Proof.
  change (wp (_send_notification self nid) env w
            (fun r _ =>
               r = Returns tt
               ∨ ∃ k msg, storage_fault env k = Some msg ∧
                   r = Raises (Exception OtherError msg))).
  send_run.
  all: eauto.
Qed.

(** After a send attempt the notification is never PENDING.  When it is
    SENT, [sent_at] is set and the retry counter is what it was; when it
    is not, the counter has grown, by one or (when the failure handler ran
    and the commit then raised) by two. *)
Theorem send_settles_status self nid env w n :
  session w !! nid = Some n →
  ∃ n', session (_send_notification self nid env w).2 !! nid = Some n' ∧
    Notification.status n' ≠ PENDING ∧
    (Notification.status n' = SENT →
       is_Some (Notification.sent_at n') ∧
       Notification.retry_count n' = Notification.retry_count n) ∧
    (Notification.status n' ≠ SENT →
       Notification.retry_count n < Notification.retry_count n'
       ≤ Notification.retry_count n + 2).
Proof.
  intros Hn.
  change (wp (_send_notification self nid) env w
            (fun _ w' =>
               ∃ n', session w' !! nid = Some n' ∧
                 Notification.status n' ≠ PENDING ∧
                 (Notification.status n' = SENT →
                    is_Some (Notification.sent_at n') ∧
                    Notification.retry_count n' = Notification.retry_count n) ∧
                 (Notification.status n' ≠ SENT →
                    Notification.retry_count n < Notification.retry_count n'
                    ≤ Notification.retry_count n + 2))).
  send_run.
  all: simplify_eq.
  all: eexists; (split; [target_lookup; reflexivity|]).
  all: repeat first
         [ rewrite refresh_status | rewrite refresh_retry_count
         | rewrite refresh_sent_at
         | rewrite handle_failed_status | rewrite handle_failed_retry_count
         | rewrite handle_failed_sent_at
         | rewrite mark_sent_status | rewrite mark_sent_retry_count
         | rewrite mark_sent_sent_at ].
  all: repeat case_match; repeat split; try done; try lia; eauto.
Qed.

Lemma send_settles_status_witness :
  ∃ n', session (_send_notification notification_service 0 failing_senders
                   (world_with pending_notification ∅)).2 !! 0%nat = Some n' ∧
    Notification.status n' ≠ PENDING.
Proof.
  destruct (send_settles_status notification_service 0 failing_senders
              (world_with pending_notification ∅) pending_notification eq_refl)
    as (n' & Hn' & Hst & _).
  by exists n'.
Defined.

(** A send attempt never changes what is sent or to whom: identity,
    user, channel, priority, recipients, subject, title, body, event
    type, retry limit and creation time stay as they were. *)
Theorem send_keeps_content self nid env w n :
  session w !! nid = Some n →
  content <$> session (_send_notification self nid env w).2 !! nid
  = Some (content n).
Proof.
  intros Hn.
  change (wp (_send_notification self nid) env w
            (fun _ w' => content <$> session w' !! nid = Some (content n))).
  send_run.
  all: simplify_eq.
  all: target_lookup.
  all: by repeat first [ rewrite content_refresh
                         | rewrite content_handle_failed
                         | rewrite content_mark_sent ].
Qed.

Lemma send_keeps_content_witness :
  content <$> session (_send_notification notification_service 0 open_sockets
                         (world_with push_notification
                            {[ "user-1" := {[ 7%nat ]} ]})).2 !! 0%nat
  = Some (content push_notification).
Proof.
  apply (send_keeps_content notification_service 0 open_sockets
           (world_with push_notification {[ "user-1" := {[ 7%nat ]} ]})
           push_notification).
  reflexivity.
Defined.

(** An email notification is sent with exactly one call, to the email
    sender; the realtime registry is neither asked nor changed. *)
Theorem email_send_calls self nid env w n :
  session w !! nid = Some n →
  Notification.notification_type n = EMAIL →
  calls (_send_notification self nid env w).2 = calls w ++ [email_call env n] ∧
  manager (_send_notification self nid env w).2 = manager w.
Proof.
  intros Hn Hty.
  change (wp (_send_notification self nid) env w
            (fun _ w' => calls w' = calls w ++ [email_call env n] ∧
                         manager w' = manager w)).
  send_run.
  all: simplify_eq.
  all: try congruence.
  all: by split.
Qed.

Lemma email_send_calls_witness :
  calls (_send_notification notification_service 0 failing_senders
           (world_with pending_notification {[ "user-1" := {[ 7%nat ]} ]})).2
  = [email_call failing_senders pending_notification].
Proof.
  apply (email_send_calls notification_service 0 failing_senders
           (world_with pending_notification {[ "user-1" := {[ 7%nat ]} ]})
           pending_notification); reflexivity.
Defined.

(** When the email sender reports success and the commit that follows
    raises, the notification is recorded as a failure although the
    message went out: the failure handler runs on the notification the
    success branch has already stamped, so the retry counter grows, the
    status is RETRYING or FAILED, and [sent_at] stays set. *)
Theorem delivered_but_commit_fails self nid env w n msg :
  session w !! nid = Some n →
  Notification.notification_type n = EMAIL →
  send_email env (tick w) (Notification.recipient_email n)
    (Notification.subject n)
    (generate_html_template env (Notification.subject n)
       (Notification.body n) (Notification.data n)) = Returns true →
  storage_fault env (S (tick w)) = Some msg →
  ∃ n', session (_send_notification self nid env w).2 !! nid = Some n' ∧
    calls (_send_notification self nid env w).2 = calls w ++ [email_call env n] ∧
    Notification.status n'
    = (if Notification.retry_count n + 1 <? Notification.max_retries n
       then RETRYING else FAILED) ∧
    Notification.retry_count n' = Notification.retry_count n + 1 ∧
    Notification.sent_at n' = Some (utcnow env (S (tick w))) ∧
    Notification.error_message n'
    = (if truthy_str (Some msg) then Some msg else Notification.error_message n).
Proof.
  intros Hn Hty Hsend Hfault.
  change (wp (_send_notification self nid) env w
            (fun _ w' =>
               ∃ n', session w' !! nid = Some n' ∧
                 calls w' = calls w ++ [email_call env n] ∧
                 Notification.status n'
                 = (if Notification.retry_count n + 1 <? Notification.max_retries n
                    then RETRYING else FAILED) ∧
                 Notification.retry_count n' = Notification.retry_count n + 1 ∧
                 Notification.sent_at n' = Some (utcnow env (S (tick w))) ∧
                 Notification.error_message n'
                 = (if truthy_str (Some msg) then Some msg
                    else Notification.error_message n))).
  send_run.
  all: simplify_eq.
  all: try congruence.
  all: eexists; (split; [target_lookup; reflexivity|]).
  all: repeat first
         [ rewrite refresh_status | rewrite refresh_retry_count
         | rewrite refresh_sent_at | rewrite refresh_error_message
         | rewrite handle_failed_status | rewrite handle_failed_retry_count
         | rewrite handle_failed_sent_at | rewrite handle_failed_error_message
         | rewrite mark_sent_retry_count | rewrite mark_sent_max_retries
         | rewrite mark_sent_sent_at | rewrite mark_sent_error_message ].
  all: by repeat split.
Qed.

Lemma delivered_but_commit_fails_witness :
  let env :=
    {| storage_fault := fun k => if Nat.eqb k 1 then Some "connection lost" else None;
       utcnow := fun k => Z.of_nat k;
       send_email := fun _ _ _ _ => Returns true;
       send_push_notification := fun _ _ _ _ _ => Returns true;
       send_json := fun _ _ _ => true;
       generate_html_template := fun _ body _ => body;
       preferences_table := [];
       templates_table := [] |} in
  ∃ n', session (_send_notification notification_service 0 env
                   (world_with pending_notification ∅)).2 !! 0%nat = Some n' ∧
    Notification.status n' = RETRYING ∧
    Notification.sent_at n' = Some 1 ∧
    Notification.error_message n' = Some "connection lost".
Proof.
  intros env.
  destruct (delivered_but_commit_fails notification_service 0 env
              (world_with pending_notification ∅) pending_notification
              "connection lost" eq_refl eq_refl eq_refl eq_refl)
    as (n' & Hn' & _ & Hst & _ & Hat & Herr).
  exists n'. by repeat split.
Defined.

Lemma send_notification_none send_json user_id (m : gmap string (gset WebSocket))
    conns :
  m !! user_id = Some conns →
  (∀ ws, ws ∈ conns → send_json ws = false) →
  ConnectionManager.send_notification send_json user_id m
  = (false, delete user_id m).
Proof.
  intros Hu Hnone. unfold ConnectionManager.send_notification. rewrite Hu.
  pose proof (send_loop_kept send_json conns) as Hk.
  pose proof (send_loop_sent send_json conns) as Hs.
  assert (He : accepting send_json conns = ∅).
  { apply set_eq. intros ws. unfold accepting. rewrite elem_of_filter.
    split; [intros [Hsend Hin]; rewrite (Hnone ws Hin) in Hsend; discriminate|].
    intros Hin. by apply not_elem_of_empty in Hin. }
  destruct (ConnectionManager.send_loop send_json conns) as [disconnected sent_count].
  cbn [fst snd] in *. rewrite Hk, He, decide_True by reflexivity.
  f_equal. rewrite Hs, He. by apply bool_decide_eq_false_2; intros H.
Qed.

(** A push notification for a connected user whose connections all fail
    to take the message, and that has a push token: the registry is asked
    first, then the push sender; the user is no longer registered
    afterwards. *)
Theorem push_falls_back self nid env w n conns :
  session w !! nid = Some n →
  Notification.notification_type n = PUSH →
  manager w !! Notification.user_id n = Some conns →
  conns ≠ ∅ →
  (∀ ws, ws ∈ conns → send_json env (tick w) ws (ws_notification_of n) = false) →
  truthy_str (Notification.recipient_fcm_token n) = true →
  calls (_send_notification self nid env w).2
  = calls w ++ [realtime_call n; push_call n] ∧
  manager (_send_notification self nid env w).2
  = delete (Notification.user_id n) (manager w).
Proof.
  intros Hn Hty Hu Hne Hnone Htoken.
  assert (Hconn : ConnectionManager.is_user_connected (Notification.user_id n)
                    (manager w) = true).
  { unfold ConnectionManager.is_user_connected. rewrite Hu.
    apply bool_decide_eq_true.
    destruct (decide (size conns = 0)%nat) as [Hz|Hz]; [|lia].
    apply size_empty_iff in Hz. by apply leibniz_equiv in Hz. }
  pose proof (send_notification_none
                (fun ws => send_json env (tick w) ws (ws_notification_of n))
                _ _ _ Hu Hnone) as Hsend.
  split.
  - change (wp (_send_notification self nid) env w
              (fun _ w' => calls w' = calls w ++ [realtime_call n; push_call n])).
    send_run.
    all: simplify_eq.
    all: try congruence.
    all: try (rewrite Htoken in *; discriminate).
    all: by rewrite <- ?app_assoc.
  - by rewrite send_manager; unfold registry_after_send; rewrite Hn, Hty, Hconn, Hsend.
Qed.

Lemma push_falls_back_witness :
  calls (_send_notification notification_service 0 failing_senders
           (world_with push_notification {[ "user-1" := {[ 7%nat ]} ]})).2
  = [realtime_call push_notification; push_call push_notification] ∧
  manager (_send_notification notification_service 0 failing_senders
             (world_with push_notification {[ "user-1" := {[ 7%nat ]} ]})).2
  = delete "user-1" {[ "user-1" := {[ 7%nat ]} ]}.
Proof.
  assert (Hne : ({[ 7%nat ]} : gset WebSocket) ≠ ∅).
  { intros Hempty. apply (f_equal size) in Hempty. vm_compute in Hempty.
    discriminate. }
  exact (push_falls_back notification_service 0 failing_senders
           (world_with push_notification {[ "user-1" := {[ 7%nat ]} ]})
           push_notification {[ 7%nat ]} eq_refl eq_refl eq_refl Hne
           (fun _ _ => eq_refl) eq_refl).
Defined.

(** A push notification with no push token, for a user who is not
    connected, fails without a call to any sender and without a change to
    the registry: the failure handler runs on it. *)
Theorem push_without_route self nid env w n :
  session w !! nid = Some n →
  Notification.notification_type n = PUSH →
  ConnectionManager.is_user_connected (Notification.user_id n) (manager w) = false →
  truthy_str (Notification.recipient_fcm_token n) = false →
  calls (_send_notification self nid env w).2 = calls w ∧
  manager (_send_notification self nid env w).2 = manager w ∧
  ∃ n', session (_send_notification self nid env w).2 !! nid = Some n' ∧
    Notification.status n' ≠ SENT ∧
    Notification.retry_count n < Notification.retry_count n'.
Proof.
  intros Hn Hty Hconn Htoken.
  change (wp (_send_notification self nid) env w
            (fun _ w' =>
               calls w' = calls w ∧ manager w' = manager w ∧
               ∃ n', session w' !! nid = Some n' ∧
                 Notification.status n' ≠ SENT ∧
                 Notification.retry_count n < Notification.retry_count n')).
  send_run.
  all: simplify_eq.
  all: try congruence.
  all: try (rewrite Htoken in *; discriminate).
  all: split; [reflexivity|]; split; [reflexivity|].
  all: eexists; (split; [target_lookup; reflexivity|]).
  all: repeat first
         [ rewrite refresh_status | rewrite refresh_retry_count
         | rewrite handle_failed_status | rewrite handle_failed_retry_count ].
  all: split; [by repeat case_match | lia].
Qed.

Lemma push_without_route_witness :
  calls (_send_notification notification_service 0 open_sockets
           (world_with push_notification_without_token ∅)).2 = [].
Proof.
  assert (Hconn : ConnectionManager.is_user_connected
                    (Notification.user_id push_notification_without_token)
                    (manager (world_with push_notification_without_token ∅))
                  = false) by (by vm_compute).
  destruct (push_without_route notification_service 0 open_sockets
              (world_with push_notification_without_token ∅)
              push_notification_without_token eq_refl eq_refl Hconn eq_refl)
    as (Hcalls & _).
  exact Hcalls.
Defined.

End SendExtras.
